(** * Atomthreads event flags (kernel/atomevent.c)

    A shallow embedding of the event library: the five public operations
    [atomEventCreate], [atomEventDelete], [atomEventWait], [atomEventSet],
    [atomEventClear] and the internal [atomEventTimerCallback], as functions
    on an explicit kernel state.

    Conventions.
    - A C pointer is an [option ptr]; [None] is [NULL].  Objects live in
      finite maps keyed by address.  A function returns [None] exactly when
      the C code would dereference a pointer that designates no object.
    - [uint32_t] values are [Z] in the range [0, 2^32); [int32_t timeout] is
      a [Z].
    - The critical section (CRITICAL_START / CRITICAL_END) makes each
      function body below one atomic step, which is what a function on the
      state expresses.
    - [atomSched (FALSE)] is the only point where another thread can run.
      [atomEventSet] and [atomEventDelete] call it last, so their result
      records whether it was called.  [atomEventWait] calls it in the middle:
      the function is split at that call into [atomEventWait] (up to the
      call) and [atomEventWait_resume] (from the return of the call). *)

From Stdlib Require Import ZArith Lia.
From stdpp Require Import base option list gmap.

Open Scope Z_scope.

(** ** Data model *)

Definition ptr := positive.

(** Modelled from the spec: the status codes, which atom.h (not part of the
    sources at hand) defines as [uint8_t] macros.  Only their being distinct
    matters. *)
Inductive status :=
  | ATOM_OK
  | ATOM_TIMEOUT
  | ATOM_WOULDBLOCK
  | ATOM_ERR_CONTEXT
  | ATOM_ERR_PARAM
  | ATOM_ERR_DELETED
  | ATOM_ERR_QUEUE
  | ATOM_ERR_TIMER.

#[global] Instance status_eq_dec : EqDecision status.
Proof. solve_decision. Defined.

(** The callbacks a timer request can name.  This module registers only its
    own. *)
Inductive timer_func := atomEventTimerCallback_func.

#[global] Instance timer_func_eq_dec : EqDecision timer_func.
Proof. solve_decision. Defined.

(** [ATOM_TIMER], the timer callback request, with the three fields
    [atomEventWait] fills in (the declaration, in atomtimer.h, is not part
    of the sources at hand).  In C the request lives on the waiting thread's
    stack and the TCB points to it; here the TCB holds the request by
    value. *)
Record ATOM_TIMER := mkTimer {
  cb_func  : timer_func;
  cb_data  : option ptr;
  cb_ticks : Z
}.

#[global] Instance ATOM_TIMER_eq_dec : EqDecision ATOM_TIMER.
Proof. solve_decision. Defined.

(** Modelled from the spec: [ATOM_TCB], declared in atom.h, which is not
    part of the sources at hand.  [suspended], [suspend_wake_status] and
    [suspend_timo_cb] are the fields atomevent.c reads and writes;
    [priority] is the one of the spec's data model, "lower value = higher
    priority". *)
Record ATOM_TCB := mkTcb {
  priority            : Z;
  suspended           : bool;
  suspend_wake_status : status;
  suspend_timo_cb     : option ATOM_TIMER
}.

#[global] Instance ATOM_TCB_eq_dec : EqDecision ATOM_TCB.
Proof. solve_decision. Defined.

(** [ATOM_EVENT] (atomevent.h). *)
Record ATOM_EVENT := mkEvent {
  tcb_ptr : option ptr;   (* Thread suspended on this event *)
  flags   : Z;            (* Event flags *)
  mask    : Z             (* Event wait mask *)
}.

#[global] Instance ATOM_EVENT_eq_dec : EqDecision ATOM_EVENT.
Proof. solve_decision. Defined.

(** The kernel state the event library touches.  [curr_tcb] is what
    [atomCurrentContext ()] returns: the running thread, or [None] in
    interrupt context. *)
Record Kernel := mkKernel {
  events    : gmap ptr ATOM_EVENT;
  tcbs      : gmap ptr ATOM_TCB;
  tcbReadyQ : list ptr;
  timers    : list ATOM_TIMER;
  curr_tcb  : option ptr
}.

(** Field updates, written as the assignments of the source. *)
Definition set_wake (st : status) (t : ATOM_TCB) : ATOM_TCB :=
  mkTcb (priority t) (suspended t) st (suspend_timo_cb t).

Definition set_timo (cb : option ATOM_TIMER) (t : ATOM_TCB) : ATOM_TCB :=
  mkTcb (priority t) (suspended t) (suspend_wake_status t) cb.

Definition set_suspended (b : bool) (t : ATOM_TCB) : ATOM_TCB :=
  mkTcb (priority t) b (suspend_wake_status t) (suspend_timo_cb t).

Definition with_events (ev : gmap ptr ATOM_EVENT) (k : Kernel) : Kernel :=
  mkKernel ev (tcbs k) (tcbReadyQ k) (timers k) (curr_tcb k).

Definition with_tcbs (ts : gmap ptr ATOM_TCB) (k : Kernel) : Kernel :=
  mkKernel (events k) ts (tcbReadyQ k) (timers k) (curr_tcb k).

Definition with_readyq (q : list ptr) (k : Kernel) : Kernel :=
  mkKernel (events k) (tcbs k) q (timers k) (curr_tcb k).

Definition with_timers (tm : list ATOM_TIMER) (k : Kernel) : Kernel :=
  mkKernel (events k) (tcbs k) (tcbReadyQ k) tm (curr_tcb k).

(** 32-bit complement [~m] of a [uint32_t]. *)
Definition not32 (m : Z) : Z := Z.lxor m (Z.ones 32).

(** Writing through the [value] out-parameter: nothing happens when the
    pointer is [NULL]. *)
Definition store_value (value : option Z) (v : Z) : option Z :=
  match value with
  | Some _ => Some v
  | None => None
  end.

(** What a call that ends by returning gives back: the status, the state on
    return, and whether [atomSched (FALSE)] was called on the way out. *)
Record Result := mkResult {
  ret   : status;
  post  : Kernel;
  sched : bool
}.

(** [atomCurrentContext ()] as a truth value. *)
Definition in_thread_context (k : Kernel) : bool :=
  match curr_tcb k with
  | Some _ => true
  | None => false
  end.

(** Where [atomEventWait] stands when it stops running: either it has
    returned, or it has called [atomSched (FALSE)] with the calling thread
    [curr_tcb_ptr] marked suspended, and goes on in [atomEventWait_resume]
    when the scheduler gives the thread the processor again. *)
Inductive WaitOutcome :=
  | WaitReturn (st : status) (value : option Z) (k : Kernel)
  | WaitSched (curr_tcb_ptr : ptr) (value : option Z) (k : Kernel).

(** The kernel state an outcome carries. *)
Definition outcome_state (o : WaitOutcome) : Kernel :=
  match o with
  | WaitReturn _ _ k => k
  | WaitSched _ _ k => k
  end.

(** ** The kernel services the event library calls

    The functions of atomkernel.c and atomtimer.c that atomevent.c calls;
    their code is not part of the sources at hand, so the event library is
    embedded over any implementation of them.  Each returns its status and
    the new content of the structure it owns.  [tcbEnqueuePriority] reads
    the priorities from the TCBs. *)
Class KernelServices := {
  tcbEnqueuePriority :
    gmap ptr ATOM_TCB -> list ptr -> ptr -> status * list ptr;
  atomTimerRegister :
    list ATOM_TIMER -> ATOM_TIMER -> status * list ATOM_TIMER;
  atomTimerCancel :
    list ATOM_TIMER -> ATOM_TIMER -> status * list ATOM_TIMER
}.

(** ** The event library *)

Section EventLibrary.

Context {KS : KernelServices}.

Definition atomEventCreate (event : option ptr) (k : Kernel)
  : status * Kernel :=
  match event with
  | None => (ATOM_ERR_PARAM, k)
  | Some e =>
      (ATOM_OK, with_events (<[e := mkEvent None 0 0]> (events k)) k)
  end.

Definition atomEventDelete (event : option ptr) (k : Kernel)
  : option Result :=
  match event with
  | None => Some (mkResult ATOM_ERR_PARAM k false)
  | Some e =>
      ev ← events k !! e;
      match tcb_ptr ev with
      | Some t =>
          tcb ← tcbs k !! t;
          (* tcb_ptr->suspend_wake_status = ATOM_ERR_DELETED *)
          let k1 := with_tcbs (<[t := set_wake ATOM_ERR_DELETED tcb]> (tcbs k)) k in
          let (st, q) := tcbEnqueuePriority (tcbs k1) (tcbReadyQ k1) t in
          let k2 := with_readyq q k1 in
          if decide (st ≠ ATOM_OK) then
            Some (mkResult ATOM_ERR_QUEUE k2 false)
          else
            match suspend_timo_cb tcb with
            | Some cb =>
                let (st', tm) := atomTimerCancel (timers k2) cb in
                let k3 := with_timers tm k2 in
                if decide (st' ≠ ATOM_OK) then
                  Some (mkResult ATOM_ERR_TIMER k3 false)
                else
                  (* tcb_ptr->suspend_timo_cb = NULL *)
                  let k4 :=
                    with_tcbs
                      (<[t := set_timo None (set_wake ATOM_ERR_DELETED tcb)]>
                         (tcbs k3)) k3 in
                  Some (mkResult ATOM_OK k4 (in_thread_context k4))
            | None =>
                Some (mkResult ATOM_OK k2 (in_thread_context k2))
            end
      | None => Some (mkResult ATOM_OK k false)
      end
  end.

Definition atomEventWait (event : option ptr) (msk : Z) (value : option Z)
    (timeout : Z) (k : Kernel) : option WaitOutcome :=
  match event with
  | None => Some (WaitReturn ATOM_ERR_PARAM value k)
  | Some e =>
      ev ← events k !! e;
      (* if (value != NULL) *value = 0 *)
      let value0 := store_value value 0 in
      if decide (Z.land (flags ev) msk = 0) then
        if decide (timeout >= 0) then
          match curr_tcb k with
          | Some c =>
              match tcb_ptr ev with
              | Some _ => Some (WaitReturn ATOM_ERR_QUEUE value0 k)
              | None =>
                  tcb ← tcbs k !! c;
                  (* event->tcb_ptr = curr_tcb_ptr; event->mask = mask *)
                  let ev1 := mkEvent (Some c) (flags ev) msk in
                  (* curr_tcb_ptr->suspended = TRUE *)
                  let tcb1 := set_suspended true tcb in
                  if decide (timeout ≠ 0) then
                    let timer_cb :=
                      mkTimer atomEventTimerCallback_func (Some e)
                        (timeout mod 2 ^ 32) in
                    let tcb2 := set_timo (Some timer_cb) tcb1 in
                    let (st, tm) := atomTimerRegister (timers k) timer_cb in
                    if decide (st ≠ ATOM_OK) then
                      (* Clean up and return to the caller *)
                      let ev2 := mkEvent None (flags ev1) 0 in
                      let tcb3 := set_timo None (set_suspended false tcb2) in
                      Some (WaitReturn ATOM_ERR_TIMER value0
                              (mkKernel (<[e := ev2]> (events k))
                                 (<[c := tcb3]> (tcbs k))
                                 (tcbReadyQ k) tm (curr_tcb k)))
                    else
                      Some (WaitSched c value0
                              (mkKernel (<[e := ev1]> (events k))
                                 (<[c := tcb2]> (tcbs k))
                                 (tcbReadyQ k) tm (curr_tcb k)))
                  else
                    (* curr_tcb_ptr->suspend_timo_cb = NULL *)
                    let tcb2 := set_timo None tcb1 in
                    Some (WaitSched c value0
                            (mkKernel (<[e := ev1]> (events k))
                               (<[c := tcb2]> (tcbs k))
                               (tcbReadyQ k) (timers k) (curr_tcb k)))
              end
          | None => Some (WaitReturn ATOM_ERR_CONTEXT value0 k)
          end
        else Some (WaitReturn ATOM_WOULDBLOCK value0 k)
      else
        Some (WaitReturn ATOM_OK (store_value value0 (Z.land (flags ev) msk)) k)
  end.

(** The rest of [atomEventWait], from the return of [atomSched (FALSE)]:
    [e] is the (non-null) event, [c] the thread that called, [value] the
    out-parameter as the first half left it. *)
Definition atomEventWait_resume (e : ptr) (c : ptr) (value : option Z)
    (k : Kernel) : option (status * option Z * Kernel) :=
  tcb ← tcbs k !! c;
  ev ← events k !! e;
  (* status = curr_tcb_ptr->suspend_wake_status *)
  let st := suspend_wake_status tcb in
  let value' :=
    if decide (st = ATOM_OK)
    then store_value value (Z.land (flags ev) (mask ev))
    else value in
  (* event->tcb_ptr = NULL; event->mask = 0 *)
  Some (st, value',
        with_events (<[e := mkEvent None (flags ev) 0]> (events k)) k).

Definition atomEventSet (event : option ptr) (msk : Z) (k : Kernel)
  : option Result :=
  match event with
  | None => Some (mkResult ATOM_ERR_PARAM k false)
  | Some e =>
      if decide (msk = 0) then Some (mkResult ATOM_ERR_PARAM k false)
      else
        ev ← events k !! e;
        (* event->flags |= mask *)
        let ev1 := mkEvent (tcb_ptr ev) (Z.lor (flags ev) msk) (mask ev) in
        let k1 := with_events (<[e := ev1]> (events k)) k in
        match tcb_ptr ev1 with
        | Some t =>
            if decide (Z.land (flags ev1) (mask ev1) ≠ 0) then
              let (st, q) := tcbEnqueuePriority (tcbs k1) (tcbReadyQ k1) t in
              let k2 := with_readyq q k1 in
              if decide (st ≠ ATOM_OK) then
                Some (mkResult ATOM_ERR_QUEUE k2 false)
              else
                tcb ← tcbs k2 !! t;
                (* tcb_ptr->suspend_wake_status = ATOM_OK *)
                let tcb1 := set_wake ATOM_OK tcb in
                let k3 := with_tcbs (<[t := tcb1]> (tcbs k2)) k2 in
                match suspend_timo_cb tcb1 with
                | Some cb =>
                    let (st', tm) := atomTimerCancel (timers k3) cb in
                    let k4 := with_timers tm k3 in
                    if decide (st' ≠ ATOM_OK) then
                      Some (mkResult ATOM_ERR_TIMER k4 (in_thread_context k4))
                    else
                      (* tcb_ptr->suspend_timo_cb = NULL *)
                      let k5 :=
                        with_tcbs (<[t := set_timo None tcb1]> (tcbs k4)) k4 in
                      Some (mkResult ATOM_OK k5 (in_thread_context k5))
                | None =>
                    let k5 :=
                      with_tcbs (<[t := set_timo None tcb1]> (tcbs k3)) k3 in
                    Some (mkResult ATOM_OK k5 (in_thread_context k5))
                end
            else Some (mkResult ATOM_OK k1 false)
        | None => Some (mkResult ATOM_OK k1 false)
        end
  end.

Definition atomEventClear (event : option ptr) (msk : Z) (k : Kernel)
  : option (status * Kernel) :=
  match event with
  | None => Some (ATOM_ERR_PARAM, k)
  | Some e =>
      ev ← events k !! e;
      (* event->flags &= ~mask *)
      let ev1 := mkEvent (tcb_ptr ev) (Z.land (flags ev) (not32 msk)) (mask ev) in
      Some (ATOM_OK, with_events (<[e := ev1]> (events k)) k)
  end.

Definition atomEventTimerCallback (cb_data : option ptr) (k : Kernel)
  : option Kernel :=
  match cb_data with
  | None => Some k
  | Some e =>
      ev ← events k !! e;
      t ← tcb_ptr ev;
      tcb ← tcbs k !! t;
      (* suspend_wake_status = ATOM_TIMEOUT; suspend_timo_cb = NULL *)
      let k1 :=
        with_tcbs (<[t := set_timo None (set_wake ATOM_TIMEOUT tcb)]> (tcbs k)) k in
      let (_, q) := tcbEnqueuePriority (tcbs k1) (tcbReadyQ k1) t in
      Some (with_readyq q k1)
  end.

End EventLibrary.

Arguments atomEventDelete {KS} event k.
Arguments atomEventWait {KS} event msk value timeout k.
Arguments atomEventSet {KS} event msk k.
Arguments atomEventTimerCallback {KS} cb_data k.

(** ** A reference implementation of the kernel services *)

Module SpecKernel.

(** The priority of a thread, read from its TCB. *)
Definition prio_of (ts : gmap ptr ATOM_TCB) (t : ptr) : Z :=
  match ts !! t with
  | Some tcb => priority tcb
  | None => 0
  end.

(** Modelled from the spec: the Ready Queue of atomkernel.c, "ordered
    sequence of TCB references, priority order (ties broken FIFO by
    insertion)", a lower value being a higher priority. *)
Fixpoint enqueue_priority (ts : gmap ptr ATOM_TCB) (q : list ptr) (t : ptr)
  : list ptr :=
  match q with
  | [] => [t]
  | h :: q' =>
      if decide (prio_of ts t < prio_of ts h) then t :: q
      else h :: enqueue_priority ts q' t
  end.

(** Modelled from the spec: the Timer Subsystem of atomtimer.c,
    "register(callback, ticks)" and "cancel(handle): removes a
    still-pending callback; fails if the callback already fired or was
    already cancelled". *)
Fixpoint remove_timer (cb : ATOM_TIMER) (tm : list ATOM_TIMER)
  : list ATOM_TIMER :=
  match tm with
  | [] => []
  | x :: tm' => if decide (x = cb) then tm' else x :: remove_timer cb tm'
  end.

(** Insertion in the ready queue and registration always succeed;
    cancellation fails for a request that is not pending. *)
Definition services : KernelServices := {|
  tcbEnqueuePriority ts q t := (ATOM_OK, enqueue_priority ts q t);
  atomTimerRegister tm cb := (ATOM_OK, tm ++ [cb]);
  atomTimerCancel tm cb :=
    if decide (cb ∈ tm) then (ATOM_OK, remove_timer cb tm)
    else (ATOM_ERR_TIMER, tm)
|}.

End SpecKernel.

(** Kernel services that refuse every request, to exercise the error paths
    of the event library. *)
Module FaultyKernel.

(** Nothing works. *)
Definition services : KernelServices := {|
  tcbEnqueuePriority ts q t := (ATOM_ERR_QUEUE, q);
  atomTimerRegister tm cb := (ATOM_ERR_TIMER, tm);
  atomTimerCancel tm cb := (ATOM_ERR_TIMER, tm)
|}.

(** The ready queue works, the timers do not. *)
Definition timer_services : KernelServices := {|
  tcbEnqueuePriority := @tcbEnqueuePriority SpecKernel.services;
  atomTimerRegister tm cb := (ATOM_ERR_TIMER, tm);
  atomTimerCancel tm cb := (ATOM_ERR_TIMER, tm)
|}.

End FaultyKernel.

(** ** Concrete kernel states *)

Module Scenario.

Definition E : ptr := 1%positive.
Definition T : ptr := 10%positive.
Definition MAIN : ptr := 11%positive.

Definition fresh_tcb (prio : Z) : ATOM_TCB := mkTcb prio false ATOM_OK None.

(** Two threads, [T] running, no event yet. *)
Definition boot : Kernel :=
  mkKernel ∅ {[ T := fresh_tcb 16; MAIN := fresh_tcb 16 ]} [] [] (Some T).

(** The event [E] created, nobody waiting. *)
Definition created : Kernel := (atomEventCreate (Some E) boot).2.

(** In interrupt context. *)
Definition in_isr (k : Kernel) : Kernel :=
  mkKernel (events k) (tcbs k) (tcbReadyQ k) (timers k) None.

(** Another thread running. *)
Definition switch_to (t : ptr) (k : Kernel) : Kernel :=
  mkKernel (events k) (tcbs k) (tcbReadyQ k) (timers k) (Some t).

(** [T] has called [atomEventWait (E, 1, _, 0)] and is blocked on [E]
    with wait mask 1 and no timeout; the scheduler has not switched yet. *)
Definition blocked : Kernel :=
  mkKernel {[ E := mkEvent (Some T) 0 1 ]}
    {[ T := mkTcb 16 true ATOM_OK None; MAIN := fresh_tcb 16 ]}
    [] [] (Some T).

(** [T] blocked on [E] with wait mask 1 and a timeout of 5 ticks. *)
Definition timer5 : ATOM_TIMER :=
  mkTimer atomEventTimerCallback_func (Some E) 5.

Definition blocked_timo : Kernel :=
  mkKernel {[ E := mkEvent (Some T) 0 1 ]}
    {[ T := mkTcb 16 true ATOM_OK (Some timer5); MAIN := fresh_tcb 16 ]}
    [] [timer5] (Some T).

(** [T] has been woken by [atomEventSet (E, 1)] from an interrupt and has
    not run yet. *)
Definition woken : Kernel :=
  mkKernel {[ E := mkEvent (Some T) 1 1 ]}
    {[ T := mkTcb 16 true ATOM_OK None; MAIN := fresh_tcb 16 ]}
    [T] [] None.

End Scenario.

(** ** Invariants and executions *)

(** The state [atomEventCreate] establishes and every operation keeps: an
    event without a waiter has a zero wait mask. *)
Definition event_wf (ev : ATOM_EVENT) : Prop :=
  tcb_ptr ev = None -> mask ev = 0.

Definition events_wf (k : Kernel) : Prop :=
  forall e ev, events k !! e = Some ev -> event_wf ev.

(** The TCB of a thread that is running: it is not suspended and has no
    timeout pending. *)
Definition tcb_running (tcb : ATOM_TCB) : Prop :=
  suspended tcb = false /\ suspend_timo_cb tcb = None.

(** The loop of the creation and deletion test that creates and deletes an
    event [n] times, counting failures and leaving at the first one. *)
Fixpoint create_delete_loop {KS : KernelServices} (n : nat)
    (event : option ptr) (failures : Z) (k : Kernel) : option (Z * Kernel) :=
  match n with
  | O => Some (failures, k)
  | S n' =>
      let (st, k1) := atomEventCreate event k in
      if decide (st = ATOM_OK) then
        r ← atomEventDelete event k1;
        if decide (ret r = ATOM_OK)
        then create_delete_loop n' event failures (post r)
        else Some (failures + 1, post r)
      else Some (failures + 1, k1)
  end.

(** What the event library relies on from the kernel services as far as
    membership goes: inserting a TCB adds nothing but that TCB, and nothing
    when it fails; registering a timer adds nothing but that timer;
    cancelling adds nothing. *)
Record services_frame (KS : KernelServices) : Prop := {
  enqueue_frame : forall ts q t x,
    x ∈ (tcbEnqueuePriority ts q t).2 -> x = t \/ x ∈ q;
  enqueue_fail : forall ts q t,
    (tcbEnqueuePriority ts q t).1 <> ATOM_OK ->
    (tcbEnqueuePriority ts q t).2 = q;
  register_frame : forall tm cb x,
    x ∈ (atomTimerRegister tm cb).2 -> x = cb \/ x ∈ tm;
  cancel_frame : forall tm cb x,
    x ∈ (atomTimerCancel tm cb).2 -> x ∈ tm
}.

(** What can run while thread [c] is suspended inside [atomEventWait].
    The scheduler and the other kernel objects take threads off the ready
    queue and put threads other than [c] on it, switch context, and write
    the TCBs of other threads; the other threads and the interrupt handlers
    call the event library; the timer subsystem fires callbacks that are
    registered and drops requests.  A suspended thread makes no call, so a
    call that can suspend its caller, or that resumes one, is made by
    somebody else. *)
Inductive env_step {KS : KernelServices} (c : ptr) : Kernel -> Kernel -> Prop :=
  | env_sched k q o :
      (c ∈ q -> c ∈ tcbReadyQ k) ->
      env_step c k (mkKernel (events k) (tcbs k) q (timers k) o)
  | env_tcb k d tcb' :
      d <> c ->
      env_step c k (with_tcbs (<[d := tcb']> (tcbs k)) k)
  | env_create k event :
      env_step c k (atomEventCreate event k).2
  | env_delete k event r :
      atomEventDelete event k = Some r ->
      env_step c k (post r)
  | env_set k event msk r :
      atomEventSet event msk k = Some r ->
      env_step c k (post r)
  | env_clear k event msk st k' :
      atomEventClear event msk k = Some (st, k') ->
      env_step c k k'
  | env_wait_return k event msk value timeout st v k' :
      curr_tcb k <> Some c ->
      atomEventWait event msk value timeout k = Some (WaitReturn st v k') ->
      env_step c k k'
  | env_wait_sched k event msk value timeout d v k' :
      curr_tcb k <> Some c ->
      atomEventWait event msk value timeout k = Some (WaitSched d v k') ->
      env_step c k k'
  | env_resume k e d value st v k' :
      d <> c ->
      atomEventWait_resume e d value k = Some (st, v, k') ->
      env_step c k k'
  | env_timer_fire k cb k' :
      cb ∈ timers k ->
      atomEventTimerCallback (cb_data cb) k = Some k' ->
      env_step c k k'
  | env_timer_drop k cb :
      env_step c k (with_timers (SpecKernel.remove_timer cb (timers k)) k).

(** Any number of such steps. *)
Inductive env_steps {KS : KernelServices} (c : ptr) : Kernel -> Kernel -> Prop :=
  | env_steps_refl k : env_steps c k k
  | env_steps_step k1 k2 k3 :
      env_steps c k1 k2 -> env_step c k2 k3 -> env_steps c k1 k3.

(** The wake statuses a thread suspended in [atomEventWait] can be given:
    ATOM_OK and ATOM_ERR_DELETED, and ATOM_TIMEOUT if the wait has a
    timeout ([timo]). *)
Definition wake_status_of_wait (timo : bool) (st : status) : Prop :=
  st = ATOM_OK \/ st = ATOM_ERR_DELETED \/ (timo = true /\ st = ATOM_TIMEOUT).

(** What holds of the kernel as long as thread [c], suspended on event [e]
    by a wait with ([timo = true]) or without ([timo = false]) timeout, has
    not resumed: the event exists; without timeout, no timer is pending for
    an event whose waiter is [c]; and if [c] is on the ready queue, it was
    put there by [atomEventSet], [atomEventDelete] or, with a timeout, the
    timer callback. *)
Record suspended_inv (timo : bool) (e c : ptr) (k : Kernel) : Prop := {
  inv_event : is_Some (events k !! e);
  inv_no_timer : timo = false -> forall e' ev' cb,
    events k !! e' = Some ev' -> tcb_ptr ev' = Some c ->
    cb ∈ timers k -> cb_data cb <> Some e';
  inv_status : exists tcb,
    tcbs k !! c = Some tcb
    /\ (c ∈ tcbReadyQ k -> wake_status_of_wait timo (suspend_wake_status tcb))
}.

(** How a step leaves the TCBs and the ready queue: as they are, or one
    TCB [t] rewritten with wake status [st] and nothing but [t] added to
    the ready queue. *)
Definition wake_shape (st : status) (k k' : Kernel) : Prop :=
  (tcbs k' = tcbs k /\ tcbReadyQ k' = tcbReadyQ k)
  \/ (exists t tcb',
        is_Some (tcbs k !! t)
        /\ tcbs k' = <[t := tcb']> (tcbs k)
        /\ suspend_wake_status tcb' = st
        /\ (forall x, x ∈ tcbReadyQ k' -> x = t \/ x ∈ tcbReadyQ k)).

(** How a step made while [c] is suspended changes the events, the timers
    and the TCB of [c]: at most one event is rewritten, and it either keeps
    its waiter or gets one that is not [c]; a timer that was not pending
    before is for an event whose waiter is not [c]; the TCB of [c] is as
    before, with [c] not added to the ready queue, or has one of the wake
    statuses of a wait. *)
Definition events_step (c : ptr) (k k' : Kernel) : Prop :=
  events k' = events k
  \/ exists e0 ev1,
       events k' = <[e0 := ev1]> (events k)
       /\ (tcb_ptr ev1 <> Some c
           \/ exists ev0, events k !! e0 = Some ev0 /\ tcb_ptr ev0 = tcb_ptr ev1).

Definition timers_step (c : ptr) (k k' : Kernel) : Prop :=
  forall cb, cb ∈ timers k' ->
    cb ∈ timers k
    \/ exists e' ev1,
         cb_data cb = Some e' /\ events k' !! e' = Some ev1
         /\ tcb_ptr ev1 <> Some c.

Definition waiter_step (timo : bool) (c : ptr) (k k' : Kernel) : Prop :=
  forall tcb0, tcbs k !! c = Some tcb0 ->
    exists tcb1,
      tcbs k' !! c = Some tcb1
      /\ ((tcb1 = tcb0 /\ (c ∈ tcbReadyQ k' -> c ∈ tcbReadyQ k))
          \/ wake_status_of_wait timo (suspend_wake_status tcb1)).

(** ** The test of waits on flags already set

    The last phase of the parameter test (its test_start sets the flags,
    waits on the lowest one and clears them all, for 32 x 32 masks).  The
    thread running the test is the caller; [failures] and [value] are its
    local variables, [ticks] stands for SYSTEM_TICKS_PER_SEC.  The result
    is [None] when the run leaves this sequential fragment: a pointer that
    designates no object is dereferenced, or the wait suspends the
    caller. *)

(** One turn of the inner loop, for the index [i]. *)
Definition already_set_turn {KS : KernelServices} (ticks : Z)
    (event : option ptr) (set_mask i : Z) (s : Z * Z * Kernel)
  : option (Z * Z * Kernel) :=
  let '(failures, value, k) := s in
  (* mask = set_mask << i *)
  let msk := Z.shiftl set_mask i mod 2 ^ 32 in
  r ← atomEventSet event msk k;
  if decide (ret r <> ATOM_OK) then Some (failures + 1, value, post r)
  else
    o ← atomEventWait event (Z.shiftl 1 i) (Some value) ticks (post r);
    match o with
    | WaitSched _ _ _ => None
    | WaitReturn st value1 k1 =>
        let value' := default value value1 in
        let failures1 :=
          if decide (st <> ATOM_OK) then failures + 1
          else if decide (value' <> Z.shiftl 1 i) then failures + 1
               else failures in
        (* atomEventClear (&event, 0xffffffff) *)
        c ← atomEventClear event (Z.ones 32) k1;
        Some (if decide (c.1 <> ATOM_OK) then failures1 + 1 else failures1,
              value', c.2)
    end.

(** for (i = ...; i < ...; i++), [n] turns from [i] on. *)
Fixpoint already_set_inner {KS : KernelServices} (n : nat) (ticks : Z)
    (event : option ptr) (set_mask i : Z) (s : Z * Z * Kernel)
  : option (Z * Z * Kernel) :=
  match n with
  | O => Some s
  | S n' =>
      s' ← already_set_turn ticks event set_mask i s;
      already_set_inner n' ticks event set_mask (i + 1) s'
  end.

(** for (j = ...; j < ...; j++), [n] turns, each with
    set_mask = (set_mask << 1) | 1 and the inner loop over 32 indices. *)
Fixpoint already_set_outer {KS : KernelServices} (n : nat) (ticks : Z)
    (event : option ptr) (set_mask : Z) (s : Z * Z * Kernel)
  : option (Z * Z * Kernel) :=
  match n with
  | O => Some s
  | S n' =>
      let set_mask' := Z.lor (Z.shiftl set_mask 1 mod 2 ^ 32) 1 in
      s' ← already_set_inner 32 ticks event set_mask' 0 s;
      already_set_outer n' ticks event set_mask' s'
  end.

(** set_mask = 0; for (j = 0; j < 32; j++) ... *)
Definition already_set_phase {KS : KernelServices} (ticks : Z)
    (event : option ptr) (s : Z * Z * Kernel) : option (Z * Z * Kernel) :=
  already_set_outer 32 ticks event 0 s.

(** Ready queues to which an insertion that succeeds adds the thread, once,
    and timers from which a request just registered, and not pending
    before, can be cancelled. *)
Definition enqueue_inserts (KS : KernelServices) : Prop :=
  forall ts q t,
    (tcbEnqueuePriority ts q t).1 = ATOM_OK ->
    (tcbEnqueuePriority ts q t).2 ≡ₚ t :: q.

Definition cancel_undoes_register (KS : KernelServices) : Prop :=
  forall tm cb,
    cb ∉ tm ->
    (atomTimerRegister tm cb).1 = ATOM_OK ->
    atomTimerCancel (atomTimerRegister tm cb).2 cb = (ATOM_OK, tm).

(** ** Properties of the event library *)

Section Properties.

Context {KS : KernelServices}.

Implicit Types (k : Kernel) (e c t : ptr) (ev : ATOM_EVENT) (tcb : ATOM_TCB).
Implicit Types (msk timeout : Z) (value : option Z).

(** *** Bit-level facts *)

Lemma not32_testbit m i :
  0 <= i < 32 -> Z.testbit (not32 m) i = negb (Z.testbit m i).
Proof.
  intros Hi. unfold not32.
  rewrite Z.lxor_spec, Z.ones_spec_low by lia.
  apply xorb_true_r.
Qed.

Lemma land_lor_disjoint f m w :
  Z.land f w = 0 -> Z.land m w = 0 -> Z.land (Z.lor f m) w = 0.
Proof.
  intros Hf Hm. rewrite Z.land_lor_distr_l, Hf, Hm. reflexivity.
Qed.

Lemma land_uint32 f n : 0 <= f < 2 ^ 32 -> 0 <= Z.land f n < 2 ^ 32.
Proof.
  intros Hf.
  assert (Hmod : Z.land f n = Z.land f n mod 2 ^ 32).
  { rewrite <- (Z.land_ones (Z.land f n)) by lia.
    rewrite <- Z.land_assoc, (Z.land_comm n), Z.land_assoc.
    rewrite (Z.land_ones f) by lia.
    rewrite (Z.mod_small f) by lia. reflexivity. }
  rewrite Hmod. apply Z.mod_pos_bound. lia.
Qed.

Lemma lor_uint32 f m :
  0 <= f < 2 ^ 32 -> 0 <= m < 2 ^ 32 -> 0 <= Z.lor f m < 2 ^ 32.
Proof.
  intros Hf Hm.
  assert (Hnn : 0 <= Z.lor f m) by (apply Z.lor_nonneg; lia).
  split; [exact Hnn|].
  destruct (Z.eq_dec (Z.lor f m) 0) as [->|Hne]; [lia|].
  apply Z.log2_lt_pow2; [lia|].
  rewrite Z.log2_lor by lia.
  apply Z.max_lub_lt.
  - destruct (Z.eq_dec f 0) as [->|]; [simpl; lia|].
    apply Z.log2_lt_pow2; lia.
  - destruct (Z.eq_dec m 0) as [->|]; [simpl; lia|].
    apply Z.log2_lt_pow2; lia.
Qed.

(** *** Waiting on flags that are already set *)

(** C2: when [flags & mask] is non-zero at the call, [atomEventWait]
    returns ATOM_OK without suspending the caller, whatever the timeout;
    the value out-parameter receives [flags & mask]; the kernel state (the
    flags, the waiter slot and the wait mask of the event included) is the
    one before the call. *)
Theorem atomEventWait_flags_already_set e ev msk value timeout k :
  events k !! e = Some ev ->
  Z.land (flags ev) msk <> 0 ->
  atomEventWait (Some e) msk value timeout k
  = Some (WaitReturn ATOM_OK
            (match value with
             | Some _ => Some (Z.land (flags ev) msk)
             | None => None
             end) k).
Proof.
  intros Hev Hset. unfold atomEventWait. rewrite Hev. simpl.
  destruct (decide (Z.land (flags ev) msk = 0)) as [Hz|_]; [contradiction|].
  destruct value; reflexivity.
Qed.

(** *** A second waiter is refused *)

(** C7: a wait that would block (timeout >= 0, [flags & mask] zero, thread
    context) on an event whose waiter slot is occupied returns
    ATOM_ERR_QUEUE, and the kernel state, so the waiter, the flags and the
    stored wait mask, is the one before the call. *)
Theorem atomEventWait_slot_occupied e ev t c msk value timeout k :
  events k !! e = Some ev ->
  Z.land (flags ev) msk = 0 ->
  timeout >= 0 ->
  curr_tcb k = Some c ->
  tcb_ptr ev = Some t ->
  atomEventWait (Some e) msk value timeout k
  = Some (WaitReturn ATOM_ERR_QUEUE (store_value value 0) k).
Proof.
  intros Hev Hz Hto Hc Ht.
  unfold atomEventWait. rewrite Hev. simpl.
  destruct (decide (Z.land (flags ev) msk = 0)); [|contradiction].
  destruct (decide (timeout >= 0)); [|contradiction].
  rewrite Hc, Ht. reflexivity.
Qed.

(** *** Clearing flags *)

(** C8: on a non-null event [atomEventClear] returns ATOM_OK for every
    mask (zero included) and replaces the flags by [flags & ~mask]: bit
    [i] stays set exactly when it was set and is not in the mask.  The
    waiter slot, the wait mask, the TCBs, the ready queue and the timers
    are as before, so nobody is woken.  ATOM_ERR_PARAM is returned for the
    null reference, and only for it. *)
Theorem atomEventClear_spec e ev msk k :
  events k !! e = Some ev ->
  (exists k',
      atomEventClear (Some e) msk k = Some (ATOM_OK, k')
      /\ events k'
         = <[e := mkEvent (tcb_ptr ev) (Z.land (flags ev) (not32 msk)) (mask ev)]>
             (events k)
      /\ tcbs k' = tcbs k
      /\ tcbReadyQ k' = tcbReadyQ k
      /\ timers k' = timers k
      /\ curr_tcb k' = curr_tcb k)
  /\ (forall i, 0 <= i < 32 ->
        Z.testbit (Z.land (flags ev) (not32 msk)) i
        = Z.testbit (flags ev) i && negb (Z.testbit msk i))
  /\ (0 <= flags ev < 2 ^ 32 ->
      0 <= Z.land (flags ev) (not32 msk) < 2 ^ 32)
  /\ atomEventClear None msk k = Some (ATOM_ERR_PARAM, k).
Proof.
  intros Hev. repeat split.
  - unfold atomEventClear. rewrite Hev. simpl. eexists. repeat split.
  - intros i Hi. rewrite Z.land_spec, not32_testbit by lia. reflexivity.
  - apply (land_uint32 (flags ev) (not32 msk)). assumption.
  - apply (land_uint32 (flags ev) (not32 msk)). assumption.
Qed.

(** *** How each waker leaves the event and the waiter *)

(** [atomEventSet] on an event with a waiter: the event keeps its waiter
    and its wait mask; if the call took the wake path to its end, the
    waiter has wake status ATOM_OK. *)
Lemma atomEventSet_waiter e ev t tcb msk k :
  events k !! e = Some ev ->
  tcb_ptr ev = Some t ->
  tcbs k !! t = Some tcb ->
  msk <> 0 ->
  exists r,
    atomEventSet (Some e) msk k = Some r
    /\ events (post r)
       = <[e := mkEvent (Some t) (Z.lor (flags ev) msk) (mask ev)]> (events k)
    /\ curr_tcb (post r) = curr_tcb k
    /\ (Z.land (Z.lor (flags ev) msk) (mask ev) <> 0 ->
        (tcbEnqueuePriority (tcbs k) (tcbReadyQ k) t).1 = ATOM_OK ->
        exists tcb', tcbs (post r) = <[t := tcb']> (tcbs k)
                     /\ suspend_wake_status tcb' = ATOM_OK).
Proof.
  intros Hev Ht Htcb Hmsk. unfold atomEventSet.
  destruct (decide (msk = 0)); [contradiction|].
  rewrite Hev. simpl. rewrite Ht. simpl.
  destruct (decide (Z.land (Z.lor (flags ev) msk) (mask ev) <> 0)) as [Hnz|Hz].
  2:{ eexists. split; [reflexivity|]. simpl. repeat split. contradiction. }
  destruct (tcbEnqueuePriority (tcbs k) (tcbReadyQ k) t) as [st q] eqn:Henq.
  destruct (decide (st <> ATOM_OK)) as [Hst|Hst].
  { eexists. split; [reflexivity|]. simpl. repeat split.
    intros _ Hok. contradiction. }
  rewrite Htcb. simpl.
  destruct (suspend_timo_cb tcb) as [cb|] eqn:Hcb.
  - destruct (atomTimerCancel (timers k) cb) as [st' tm] eqn:Hcan.
    destruct (decide (st' <> ATOM_OK)).
    + eexists. split; [reflexivity|]. simpl. repeat split.
      intros _ _. eexists. split; [reflexivity|]. reflexivity.
    + eexists. split; [reflexivity|]. simpl. repeat split.
      intros _ _. eexists. split; [apply insert_insert_eq|]. reflexivity.
  - eexists. split; [reflexivity|]. simpl. repeat split.
    intros _ _. eexists. split; [apply insert_insert_eq|]. reflexivity.
Qed.

(** [atomEventDelete] on an event with a waiter: the event is left as it
    is, the waiter has wake status ATOM_ERR_DELETED. *)
Lemma atomEventDelete_waiter e ev t tcb k :
  events k !! e = Some ev ->
  tcb_ptr ev = Some t ->
  tcbs k !! t = Some tcb ->
  exists r tcb',
    atomEventDelete (Some e) k = Some r
    /\ events (post r) = events k
    /\ curr_tcb (post r) = curr_tcb k
    /\ tcbs (post r) = <[t := tcb']> (tcbs k)
    /\ suspend_wake_status tcb' = ATOM_ERR_DELETED.
Proof.
  intros Hev Ht Htcb. unfold atomEventDelete.
  rewrite Hev. simpl. rewrite Ht, Htcb. simpl.
  destruct (tcbEnqueuePriority _ _ t) as [st q].
  destruct (decide (st <> ATOM_OK)).
  { do 2 eexists. split; [reflexivity|]. simpl. repeat split. }
  destruct (suspend_timo_cb tcb) as [cb|].
  - destruct (atomTimerCancel _ cb) as [st' tm].
    destruct (decide (st' <> ATOM_OK)).
    + do 2 eexists. split; [reflexivity|]. simpl. repeat split.
    + do 2 eexists. split; [reflexivity|]. simpl.
      split; [reflexivity|]. split; [reflexivity|].
      split; [apply insert_insert_eq|]. reflexivity.
  - do 2 eexists. split; [reflexivity|]. simpl. repeat split.
Qed.

(** [atomEventTimerCallback] on an event with a waiter: the event is left
    as it is, the waiter has wake status ATOM_TIMEOUT and no timeout
    pending. *)
Lemma atomEventTimerCallback_waiter e ev t tcb k :
  events k !! e = Some ev ->
  tcb_ptr ev = Some t ->
  tcbs k !! t = Some tcb ->
  exists k',
    atomEventTimerCallback (Some e) k = Some k'
    /\ events k' = events k
    /\ curr_tcb k' = curr_tcb k
    /\ timers k' = timers k
    /\ tcbs k' = <[t := set_timo None (set_wake ATOM_TIMEOUT tcb)]> (tcbs k)
    /\ tcbReadyQ k'
       = (tcbEnqueuePriority
            (<[t := set_timo None (set_wake ATOM_TIMEOUT tcb)]> (tcbs k))
            (tcbReadyQ k) t).2.
Proof.
  intros Hev Ht Htcb. unfold atomEventTimerCallback.
  rewrite Hev. simpl. rewrite Ht. simpl. rewrite Htcb. simpl.
  destruct (tcbEnqueuePriority _ _ t) as [st q].
  eexists. split; [reflexivity|]. simpl. repeat split.
Qed.

(** The resumed [atomEventWait]: it returns the wake status of the
    thread, delivers [flags & mask] when that status is ATOM_OK, and
    empties the waiter slot and the wait mask. *)
Lemma atomEventWait_resume_eq e ev c tcb value k :
  events k !! e = Some ev ->
  tcbs k !! c = Some tcb ->
  atomEventWait_resume e c value k
  = Some (suspend_wake_status tcb,
          (if decide (suspend_wake_status tcb = ATOM_OK)
           then store_value value (Z.land (flags ev) (mask ev))
           else value),
          with_events (<[e := mkEvent None (flags ev) 0]> (events k)) k).
Proof.
  intros Hev Htcb. unfold atomEventWait_resume.
  rewrite Htcb. simpl. rewrite Hev. reflexivity.
Qed.

(** *** Setting flags *)

(** C1 (as amended): for a non-null event and a non-zero mask
    [atomEventSet] replaces the flags by [flags | mask] whatever else
    happens.  If there is no waiter, or no flag of the wait mask is set
    after the update, nothing else changes and ATOM_OK is returned.  If
    there is a waiter and a flag of its wait mask is set after the update,
    the waiter is handed to the ready queue and, the insertion succeeding,
    its wake status becomes ATOM_OK.  So a set whose mask is disjoint from
    the wait mask wakes nobody when no flag of the wait mask was set
    before the call.  A null event or a zero mask gives ATOM_ERR_PARAM and
    the state is left as it is. *)
Theorem atomEventSet_spec e ev msk k :
  events k !! e = Some ev ->
  msk <> 0 ->
  (forall t, tcb_ptr ev = Some t -> is_Some (tcbs k !! t)) ->
  (exists r,
      atomEventSet (Some e) msk k = Some r
      /\ events (post r)
         = <[e := mkEvent (tcb_ptr ev) (Z.lor (flags ev) msk) (mask ev)]> (events k)
      /\ (tcb_ptr ev = None \/ Z.land (Z.lor (flags ev) msk) (mask ev) = 0 ->
          ret r = ATOM_OK /\ sched r = false
          /\ tcbs (post r) = tcbs k
          /\ tcbReadyQ (post r) = tcbReadyQ k
          /\ timers (post r) = timers k)
      /\ (forall t,
            tcb_ptr ev = Some t ->
            Z.land (Z.lor (flags ev) msk) (mask ev) <> 0 ->
            tcbReadyQ (post r)
            = (tcbEnqueuePriority (tcbs k) (tcbReadyQ k) t).2
            /\ ((tcbEnqueuePriority (tcbs k) (tcbReadyQ k) t).1 = ATOM_OK ->
                suspend_wake_status <$> tcbs (post r) !! t = Some ATOM_OK
                /\ sched r = in_thread_context k
                /\ (ret r = ATOM_OK \/ ret r = ATOM_ERR_TIMER))
            /\ ((tcbEnqueuePriority (tcbs k) (tcbReadyQ k) t).1 <> ATOM_OK ->
                ret r = ATOM_ERR_QUEUE /\ sched r = false
                /\ tcbs (post r) = tcbs k))
      /\ (Z.land (flags ev) (mask ev) = 0 ->
          Z.land msk (mask ev) = 0 ->
          ret r = ATOM_OK /\ sched r = false
          /\ tcbs (post r) = tcbs k
          /\ tcbReadyQ (post r) = tcbReadyQ k
          /\ timers (post r) = timers k))
  /\ (0 <= flags ev < 2 ^ 32 -> 0 <= msk < 2 ^ 32 ->
      0 <= Z.lor (flags ev) msk < 2 ^ 32)
  /\ atomEventSet None msk k = Some (mkResult ATOM_ERR_PARAM k false)
  /\ atomEventSet (Some e) 0 k = Some (mkResult ATOM_ERR_PARAM k false).
Proof.
  intros Hev Hmsk Htcb.
  split; [|split; [apply lor_uint32|split; reflexivity]].
  assert (Hquiet :
    tcb_ptr ev = None \/ Z.land (Z.lor (flags ev) msk) (mask ev) = 0 ->
    atomEventSet (Some e) msk k
    = Some (mkResult ATOM_OK
              (with_events
                 (<[e := mkEvent (tcb_ptr ev) (Z.lor (flags ev) msk) (mask ev)]>
                    (events k)) k) false)).
  { intros Hq. unfold atomEventSet.
    destruct (decide (msk = 0)); [contradiction|].
    rewrite Hev. simpl.
    destruct (tcb_ptr ev) as [t|]; [|reflexivity].
    destruct Hq as [Hq|Hq]; [discriminate|].
    destruct (decide (Z.land (Z.lor (flags ev) msk) (mask ev) <> 0));
      [contradiction|reflexivity]. }
  destruct (tcb_ptr ev) as [t|] eqn:Ht.
  2:{ eexists. split; [apply Hquiet; left; reflexivity|]. simpl.
      repeat split; try discriminate; auto. }
  destruct (decide (Z.land (Z.lor (flags ev) msk) (mask ev) = 0)) as [Hz|Hnz].
  { eexists. split; [apply Hquiet; right; exact Hz|]. simpl.
    repeat split; try contradiction; auto. }
  destruct (Htcb t eq_refl) as [tcb Htcbt].
  assert (Hdisj : Z.land (flags ev) (mask ev) = 0 ->
                  Z.land msk (mask ev) = 0 -> False).
  { intros H1 H2. apply Hnz. apply land_lor_disjoint; assumption. }
  unfold atomEventSet.
  destruct (decide (msk = 0)); [contradiction|].
  rewrite Hev. simpl. rewrite Ht. simpl.
  destruct (decide (Z.land (Z.lor (flags ev) msk) (mask ev) <> 0));
    [|contradiction].
  destruct (tcbEnqueuePriority (tcbs k) (tcbReadyQ k) t) as [st q] eqn:Henq.
  destruct (decide (st <> ATOM_OK)) as [Hst|Hst].
  { eexists. split; [reflexivity|]. simpl.
    split; [reflexivity|].
    split; [intros [?|?]; [discriminate|contradiction]|].
    split; [|intros; exfalso; eauto].
    intros t' [= <-] _. rewrite Henq. simpl.
    repeat split; try contradiction; auto. }
  apply dec_stable in Hst. subst st.
  rewrite Htcbt. simpl.
  destruct (suspend_timo_cb tcb) as [cb|] eqn:Hcb.
  - destruct (atomTimerCancel (timers k) cb) as [st' tm] eqn:Hcan.
    destruct (decide (st' <> ATOM_OK)).
    + eexists. split; [reflexivity|]. simpl.
      split; [reflexivity|].
      split; [intros [?|?]; [discriminate|contradiction]|].
      split; [|intros; exfalso; eauto].
      intros t' [= <-] _. rewrite Henq. simpl.
      repeat split; try congruence; auto.
      rewrite lookup_insert_eq. reflexivity.
    + eexists. split; [reflexivity|]. simpl.
      split; [reflexivity|].
      split; [intros [?|?]; [discriminate|contradiction]|].
      split; [|intros; exfalso; eauto].
      intros t' [= <-] _. rewrite Henq. simpl.
      repeat split; try congruence; auto.
      rewrite lookup_insert_eq. reflexivity.
  - eexists. split; [reflexivity|]. simpl.
    split; [reflexivity|].
    split; [intros [?|?]; [discriminate|contradiction]|].
    split; [|intros; exfalso; eauto].
    intros t' [= <-] _. rewrite Henq. simpl.
    repeat split; try congruence; auto.
    rewrite lookup_insert_eq. reflexivity.
Qed.

(** *** Resuming from a wait *)


(** *** Who clears the waiter slot *)

(** C5 (as amended): no waker empties the waiter slot.  On an event with
    a waiter, [atomEventSet], [atomEventDelete] and the timeout callback
    assign the wake status and leave the waiter slot and the wait mask of
    the event as they are; it is the woken thread, resuming in
    [atomEventWait], that empties the slot and zeroes the wait mask,
    whatever its wake status. *)
Theorem waiter_slot_cleared_on_resume e ev t tcb k :
  events k !! e = Some ev ->
  tcb_ptr ev = Some t ->
  tcbs k !! t = Some tcb ->
  (forall msk, msk <> 0 ->
     exists r, atomEventSet (Some e) msk k = Some r
               /\ events (post r) !! e
                  = Some (mkEvent (Some t) (Z.lor (flags ev) msk) (mask ev)))
  /\ (exists r, atomEventDelete (Some e) k = Some r
                /\ events (post r) !! e = Some ev
                /\ suspend_wake_status <$> tcbs (post r) !! t
                   = Some ATOM_ERR_DELETED)
  /\ (exists k', atomEventTimerCallback (Some e) k = Some k'
                 /\ events k' !! e = Some ev
                 /\ suspend_wake_status <$> tcbs k' !! t = Some ATOM_TIMEOUT)
  /\ (forall value,
        exists value' k',
          atomEventWait_resume e t value k
          = Some (suspend_wake_status tcb, value', k')
          /\ events k' !! e = Some (mkEvent None (flags ev) 0)).
Proof.
  intros Hev Ht Htcb. repeat split.
  - intros msk Hmsk.
    destruct (atomEventSet_waiter e ev t tcb msk k Hev Ht Htcb Hmsk)
      as (r & Hset & Hevs & _).
    exists r. split; [exact Hset|]. rewrite Hevs. apply lookup_insert_eq.
  - destruct (atomEventDelete_waiter e ev t tcb k Hev Ht Htcb)
      as (r & tcb' & Hdel & Hevs & _ & Htcbs & Hst).
    exists r. split; [exact Hdel|]. rewrite Hevs, Htcbs, lookup_insert_eq.
    simpl. rewrite Hst. split; [exact Hev|reflexivity].
  - destruct (atomEventTimerCallback_waiter e ev t tcb k Hev Ht Htcb)
      as (k' & Hcb & Hevs & _ & _ & Htcbs & _).
    exists k'. split; [exact Hcb|]. rewrite Hevs, Htcbs, lookup_insert_eq.
    split; [exact Hev|reflexivity].
  - intros value. do 2 eexists.
    split; [apply (atomEventWait_resume_eq e ev t tcb); assumption|].
    simpl. apply lookup_insert_eq.
Qed.

(** *** Deleting an event *)

Lemma create_delete_loop_ok n e k :
  create_delete_loop n (Some e) 0 k
  = Some (0, match n with
             | O => k
             | S _ => with_events (<[e := mkEvent None 0 0]> (events k)) k
             end).
Proof.
  revert k. induction n as [|n IH]; intros k; [reflexivity|].
  simpl. rewrite lookup_insert_eq. simpl. rewrite IH.
  destruct n; [reflexivity|].
  unfold with_events. simpl. rewrite insert_insert_eq. reflexivity.
Qed.

(** C6: on an event with a blocked waiter [atomEventDelete] sets the
    waiter's wake status to ATOM_ERR_DELETED, hands it to the ready queue,
    cancels its timeout if one is pending, and returns ATOM_OK; the
    scheduler is called in thread context.  If the insertion in the ready
    queue fails it returns ATOM_ERR_QUEUE, if the cancellation fails
    ATOM_ERR_TIMER, and in both cases it stops where it is: the wake
    status is already written, and the scheduler is not called.  On a null
    reference it returns ATOM_ERR_PARAM.  Creating then deleting an event
    with no waiter, any number of times, never fails and leaves the timers
    as they were. *)
Theorem atomEventDelete_spec e ev t tcb k :
  events k !! e = Some ev ->
  tcb_ptr ev = Some t ->
  tcbs k !! t = Some tcb ->
  let woken := set_wake ATOM_ERR_DELETED tcb in
  let enq := tcbEnqueuePriority (<[t := woken]> (tcbs k)) (tcbReadyQ k) t in
  (enq.1 = ATOM_OK ->
   (forall cb, suspend_timo_cb tcb = Some cb ->
               (atomTimerCancel (timers k) cb).1 = ATOM_OK) ->
   exists r,
     atomEventDelete (Some e) k = Some r
     /\ ret r = ATOM_OK
     /\ sched r = in_thread_context k
     /\ events (post r) = events k
     /\ tcbs (post r) = <[t := set_timo None woken]> (tcbs k)
     /\ tcbReadyQ (post r) = enq.2
     /\ timers (post r)
        = match suspend_timo_cb tcb with
          | Some cb => (atomTimerCancel (timers k) cb).2
          | None => timers k
          end)
  /\ (enq.1 <> ATOM_OK ->
      atomEventDelete (Some e) k
      = Some (mkResult ATOM_ERR_QUEUE
                (mkKernel (events k) (<[t := woken]> (tcbs k)) enq.2
                   (timers k) (curr_tcb k)) false))
  /\ (enq.1 = ATOM_OK ->
      forall cb, suspend_timo_cb tcb = Some cb ->
                 (atomTimerCancel (timers k) cb).1 <> ATOM_OK ->
      atomEventDelete (Some e) k
      = Some (mkResult ATOM_ERR_TIMER
                (mkKernel (events k) (<[t := woken]> (tcbs k)) enq.2
                   (atomTimerCancel (timers k) cb).2 (curr_tcb k)) false))
  /\ atomEventDelete None k = Some (mkResult ATOM_ERR_PARAM k false)
  /\ (forall n e' k0,
        exists k1,
          create_delete_loop n (Some e') 0 k0 = Some (0, k1)
          /\ timers k1 = timers k0).
Proof.
  intros Hev Ht Htcb woken enq.
  assert (Hunf :
    atomEventDelete (Some e) k
    = if decide (enq.1 <> ATOM_OK) then
        Some (mkResult ATOM_ERR_QUEUE
                (mkKernel (events k) (<[t := woken]> (tcbs k)) enq.2
                   (timers k) (curr_tcb k)) false)
      else
        match suspend_timo_cb tcb with
        | Some cb =>
            if decide ((atomTimerCancel (timers k) cb).1 <> ATOM_OK) then
              Some (mkResult ATOM_ERR_TIMER
                      (mkKernel (events k) (<[t := woken]> (tcbs k)) enq.2
                         (atomTimerCancel (timers k) cb).2 (curr_tcb k)) false)
            else
              Some (mkResult ATOM_OK
                      (mkKernel (events k)
                         (<[t := set_timo None woken]> (tcbs k)) enq.2
                         (atomTimerCancel (timers k) cb).2 (curr_tcb k))
                      (in_thread_context k))
        | None =>
            Some (mkResult ATOM_OK
                    (mkKernel (events k) (<[t := woken]> (tcbs k)) enq.2
                       (timers k) (curr_tcb k))
                    (in_thread_context k))
        end).
  { unfold atomEventDelete. rewrite Hev. simpl. rewrite Ht, Htcb. simpl.
    subst enq woken.
    destruct (tcbEnqueuePriority _ _ t) as [st q]. simpl.
    destruct (decide (st <> ATOM_OK)); [reflexivity|].
    destruct (suspend_timo_cb tcb) as [cb|]; [|reflexivity].
    destruct (atomTimerCancel (timers k) cb) as [st' tm]. simpl.
    destruct (decide (st' <> ATOM_OK)); [reflexivity|].
    unfold with_tcbs. simpl. rewrite insert_insert_eq. reflexivity. }
  split; [|split; [|split; [|split]]].
  - intros Henq Hcan. rewrite Hunf.
    destruct (decide (enq.1 <> ATOM_OK)); [contradiction|].
    destruct (suspend_timo_cb tcb) as [cb|] eqn:Hcb.
    + destruct (decide ((atomTimerCancel (timers k) cb).1 <> ATOM_OK)) as [Hn|_].
      { exfalso. apply Hn. apply Hcan. reflexivity. }
      eexists. split; [reflexivity|]. simpl. repeat split.
    + eexists. split; [reflexivity|]. simpl. repeat split.
      f_equal. subst woken. unfold set_timo, set_wake. simpl.
      rewrite Hcb. reflexivity.
  - intros Henq. rewrite Hunf.
    destruct (decide (enq.1 <> ATOM_OK)); [reflexivity|contradiction].
  - intros Henq cb Hcb Hcan. rewrite Hunf.
    destruct (decide (enq.1 <> ATOM_OK)); [contradiction|].
    rewrite Hcb.
    destruct (decide ((atomTimerCancel (timers k) cb).1 <> ATOM_OK));
      [reflexivity|contradiction].
  - reflexivity.
  - intros n e' k0. eexists. split; [apply create_delete_loop_ok|].
    destruct n; reflexivity.
Qed.

(** *** A wait whose timer cannot be registered *)

(** C10: when the timer registration fails in a blocking [atomEventWait]
    (timeout > 0), the call returns ATOM_ERR_TIMER with the waiter slot of
    the event empty, its wait mask 0, its flags as before, and the calling
    TCB not suspended and without a pending timeout; the ready queue is
    untouched.  For an event as [atomEventCreate] and the library leave
    it (wait mask 0 when nobody waits) the events are exactly those
    before the call, and for a caller that was running (not suspended, no
    timeout pending) so are the TCBs. *)
Theorem atomEventWait_register_fails e ev c tcb msk value timeout k :
  events k !! e = Some ev ->
  Z.land (flags ev) msk = 0 ->
  timeout > 0 ->
  curr_tcb k = Some c ->
  tcb_ptr ev = None ->
  tcbs k !! c = Some tcb ->
  (atomTimerRegister (timers k)
     (mkTimer atomEventTimerCallback_func (Some e) (timeout mod 2 ^ 32))).1
  <> ATOM_OK ->
  exists k',
    atomEventWait (Some e) msk value timeout k
    = Some (WaitReturn ATOM_ERR_TIMER (store_value value 0) k')
    /\ events k' = <[e := mkEvent None (flags ev) 0]> (events k)
    /\ tcbs k'
       = <[c := mkTcb (priority tcb) false (suspend_wake_status tcb) None]>
           (tcbs k)
    /\ tcbReadyQ k' = tcbReadyQ k
    /\ curr_tcb k' = curr_tcb k
    /\ (event_wf ev -> events k' = events k)
    /\ (tcb_running tcb -> tcbs k' = tcbs k).
Proof.
  intros Hev Hz Hto Hc Hfree Htcb Hreg. unfold atomEventWait.
  rewrite Hev. simpl.
  destruct (decide (Z.land (flags ev) msk = 0)); [|contradiction].
  destruct (decide (timeout >= 0)); [|lia].
  rewrite Hc, Hfree, Htcb. simpl.
  destruct (decide (timeout <> 0)); [|lia].
  destruct (atomTimerRegister _ _) as [st tm]. simpl in Hreg.
  destruct (decide (st <> ATOM_OK)); [|contradiction].
  eexists. split; [reflexivity|]. simpl.
  repeat split.
  - intros Hwf. apply insert_id. rewrite Hev. f_equal.
    destruct ev as [w f m]. unfold event_wf in Hwf. simpl in *.
    subst w. rewrite Hwf by reflexivity. reflexivity.
  - intros [Hs Ht]. apply insert_id. rewrite Htcb. f_equal.
    destruct tcb as [p s w o]. simpl in *. subst. reflexivity.
Qed.

(** *** What the operations leave alone *)

Section Frames.

Hypothesis frame : services_frame KS.

Lemma atomEventSet_shape event msk k r :
  atomEventSet event msk k = Some r ->
  curr_tcb (post r) = curr_tcb k
  /\ (events (post r) = events k
      \/ exists e ev,
           events k !! e = Some ev
           /\ events (post r)
              = <[e := mkEvent (tcb_ptr ev) (Z.lor (flags ev) msk) (mask ev)]>
                  (events k))
  /\ (forall x, x ∈ timers (post r) -> x ∈ timers k)
  /\ wake_shape ATOM_OK k (post r).
Proof.
  intros H. destruct event as [e|]; simpl in H.
  2:{ simplify_eq. simpl. split; [reflexivity|]. split; [left; reflexivity|].
      split; [auto|]. left. split; reflexivity. }
  destruct (decide (msk = 0)).
  { simplify_eq. simpl. split; [reflexivity|]. split; [left; reflexivity|].
    split; [auto|]. left. split; reflexivity. }
  destruct (events k !! e) as [ev|] eqn:Hev; [|discriminate].
  simpl in H.
  destruct (tcb_ptr ev) as [t|] eqn:Ht.
  2:{ simplify_eq. simpl. split; [reflexivity|].
      split; [right; exists e, ev; rewrite Ht; auto|].
      split; [auto|]. left. split; reflexivity. }
  destruct (decide (Z.land (Z.lor (flags ev) msk) (mask ev) <> 0)).
  2:{ simplify_eq. simpl. split; [reflexivity|].
      split; [right; exists e, ev; rewrite Ht; auto|].
      split; [auto|]. left. split; reflexivity. }
  destruct (tcbEnqueuePriority _ _ t) as [st q] eqn:Henq. simpl in Henq.
  destruct (decide (st <> ATOM_OK)) as [Hst|Hst].
  { simplify_eq. simpl. split; [reflexivity|].
    split; [right; exists e, ev; rewrite Ht; auto|].
    split; [auto|]. left. split; [reflexivity|].
    pose proof (enqueue_fail KS frame (tcbs k) (tcbReadyQ k) t) as Hq.
    rewrite Henq in Hq. simpl in Hq. auto. }
  assert (Hq : forall x, x ∈ q -> x = t \/ x ∈ tcbReadyQ k).
  { intros x Hx.
    apply (enqueue_frame KS frame (tcbs k) (tcbReadyQ k) t).
    rewrite Henq. exact Hx. }
  simpl in H.
  destruct (tcbs k !! t) as [tcb|] eqn:Htcb; [|discriminate].
  simpl in H.
  destruct (suspend_timo_cb tcb) as [cb|] eqn:Hcb.
  - destruct (atomTimerCancel _ cb) as [st' tm] eqn:Hcan. simpl in Hcan.
    assert (Htm : forall x, x ∈ tm -> x ∈ timers k).
    { intros x Hx. apply (cancel_frame KS frame (timers k) cb).
      rewrite Hcan. exact Hx. }
    destruct (decide (st' <> ATOM_OK)); simplify_eq; simpl;
      (split; [reflexivity|]);
      (split; [right; exists e, ev; rewrite Ht; auto|]);
      (split; [auto|]); right; do 2 eexists;
      (split; [eauto|]);
      (split; [first [reflexivity | apply insert_insert_eq]|]);
      split; auto.
  - simplify_eq; simpl;
      (split; [reflexivity|]);
      (split; [right; exists e, ev; rewrite Ht; auto|]);
      (split; [auto|]); right; do 2 eexists;
      (split; [eauto|]);
      (split; [first [reflexivity | apply insert_insert_eq]|]);
      split; auto.
Qed.

Lemma atomEventDelete_shape event k r :
  atomEventDelete event k = Some r ->
  curr_tcb (post r) = curr_tcb k
  /\ events (post r) = events k
  /\ (forall x, x ∈ timers (post r) -> x ∈ timers k)
  /\ wake_shape ATOM_ERR_DELETED k (post r).
Proof.
  intros H. destruct event as [e|]; simpl in H.
  2:{ simplify_eq. simpl. repeat (split; [auto|]). left. split; reflexivity. }
  destruct (events k !! e) as [ev|] eqn:Hev; [|discriminate].
  simpl in H.
  destruct (tcb_ptr ev) as [t|] eqn:Ht.
  2:{ simplify_eq. simpl. repeat (split; [auto|]). left. split; reflexivity. }
  destruct (tcbs k !! t) as [tcb|] eqn:Htcb; [|discriminate].
  simpl in H.
  destruct (tcbEnqueuePriority _ _ t) as [st q] eqn:Henq. simpl in Henq.
  assert (Hq : forall x, x ∈ q -> x = t \/ x ∈ tcbReadyQ k).
  { intros x Hx.
    apply (enqueue_frame KS frame
             (<[t := set_wake ATOM_ERR_DELETED tcb]> (tcbs k)) (tcbReadyQ k) t).
    rewrite Henq. exact Hx. }
  destruct (decide (st <> ATOM_OK)) as [Hst|Hst].
  { simplify_eq. simpl. repeat (split; [auto|]).
    right. do 2 eexists. split; [eauto|]. split; [reflexivity|]. split; auto. }
  destruct (suspend_timo_cb tcb) as [cb|] eqn:Hcb.
  - destruct (atomTimerCancel _ cb) as [st' tm] eqn:Hcan. simpl in Hcan.
    assert (Htm : forall x, x ∈ tm -> x ∈ timers k).
    { intros x Hx. apply (cancel_frame KS frame (timers k) cb).
      rewrite Hcan. exact Hx. }
    destruct (decide (st' <> ATOM_OK)); simplify_eq; simpl;
      repeat (split; [auto|]); right; do 2 eexists;
      (split; [eauto|]);
      (split; [first [reflexivity | apply insert_insert_eq]|]);
      split; auto.
  - simplify_eq. simpl. repeat (split; [auto|]).
    right. do 2 eexists. split; [eauto|]. split; [reflexivity|]. split; auto.
Qed.

Lemma atomEventTimerCallback_shape cb_data k k' :
  atomEventTimerCallback cb_data k = Some k' ->
  curr_tcb k' = curr_tcb k
  /\ events k' = events k
  /\ timers k' = timers k
  /\ (k' = k
      \/ exists e ev t tcb',
           cb_data = Some e
           /\ events k !! e = Some ev
           /\ tcb_ptr ev = Some t
           /\ is_Some (tcbs k !! t)
           /\ tcbs k' = <[t := tcb']> (tcbs k)
           /\ suspend_wake_status tcb' = ATOM_TIMEOUT
           /\ (forall x, x ∈ tcbReadyQ k' -> x = t \/ x ∈ tcbReadyQ k)).
Proof.
  intros H. destruct cb_data as [e|]; simpl in H.
  2:{ simplify_eq. repeat (split; [auto|]). left. reflexivity. }
  destruct (events k !! e) as [ev|] eqn:Hev; [|discriminate].
  simpl in H.
  destruct (tcb_ptr ev) as [t|] eqn:Ht; [|discriminate].
  simpl in H.
  destruct (tcbs k !! t) as [tcb|] eqn:Htcb; [|discriminate].
  simpl in H.
  destruct (tcbEnqueuePriority _ _ t) as [st q] eqn:Henq. simpl in Henq.
  simplify_eq. simpl. repeat (split; [auto|]).
  right. exists e, ev, t. eexists.
  split; [reflexivity|]. split; [exact Hev|]. split; [exact Ht|].
  split; [eauto|]. split; [reflexivity|]. split; [reflexivity|].
  intros x Hx.
  apply (enqueue_frame KS frame
           (<[t := set_timo None (set_wake ATOM_TIMEOUT tcb)]> (tcbs k))
           (tcbReadyQ k) t).
  rewrite Henq. exact Hx.
Qed.

Lemma atomEventWait_shape event msk value timeout k o :
  atomEventWait event msk value timeout k = Some o ->
  curr_tcb (outcome_state o) = curr_tcb k
  /\ tcbReadyQ (outcome_state o) = tcbReadyQ k
  /\ (outcome_state o = k
      \/ exists e ev d tcb ev1 tcb1,
           curr_tcb k = Some d
           /\ events k !! e = Some ev
           /\ tcbs k !! d = Some tcb
           /\ events (outcome_state o) = <[e := ev1]> (events k)
           /\ (tcb_ptr ev1 = Some d \/ tcb_ptr ev1 = None /\ mask ev1 = 0)
           /\ tcbs (outcome_state o) = <[d := tcb1]> (tcbs k)
           /\ suspend_wake_status tcb1 = suspend_wake_status tcb
           /\ (forall x, x ∈ timers (outcome_state o) ->
                         x ∈ timers k \/ cb_data x = Some e)).
Proof.
  intros H. destruct event as [e|]; simpl in H.
  2:{ simplify_eq. simpl. repeat (split; [auto|]). left. reflexivity. }
  destruct (events k !! e) as [ev|] eqn:Hev; [|discriminate].
  simpl in H.
  destruct (decide (Z.land (flags ev) msk = 0)).
  2:{ simplify_eq. simpl. repeat (split; [auto|]). left. reflexivity. }
  destruct (decide (timeout >= 0)).
  2:{ simplify_eq. simpl. repeat (split; [auto|]). left. reflexivity. }
  destruct (curr_tcb k) as [d|] eqn:Hd.
  2:{ simplify_eq. simpl. repeat (split; [auto|]). left. reflexivity. }
  destruct (tcb_ptr ev) as [t|] eqn:Ht.
  { simplify_eq. simpl. repeat (split; [auto|]). left. reflexivity. }
  destruct (tcbs k !! d) as [tcb|] eqn:Htcb; [|discriminate].
  simpl in H.
  destruct (decide (timeout <> 0)).
  - destruct (atomTimerRegister _ _) as [st tm] eqn:Hreg. simpl in Hreg.
    assert (Htm : forall x, x ∈ tm -> x ∈ timers k \/ cb_data x = Some e).
    { intros x Hx.
      destruct (register_frame KS frame (timers k)
                  (mkTimer atomEventTimerCallback_func (Some e)
                     (timeout mod 2 ^ 32)) x) as [->|Hin].
      - rewrite Hreg. exact Hx.
      - right. reflexivity.
      - left. exact Hin. }
    destruct (decide (st <> ATOM_OK)); simplify_eq; simpl;
      (split; [reflexivity|]); (split; [reflexivity|]);
      right; exists e, ev, d, tcb; do 2 eexists;
      split_and!; simpl; try reflexivity; eauto.
  - simplify_eq; simpl;
      (split; [reflexivity|]); (split; [reflexivity|]);
      right; exists e, ev, d, tcb; do 2 eexists;
      split_and!; simpl; try reflexivity; eauto.
Qed.

(** *** The invariant of a wait without timeout *)

Lemma suspended_inv_update timo e c k k' :
  suspended_inv timo e c k ->
  events_step c k k' ->
  timers_step c k k' ->
  waiter_step timo c k k' ->
  suspended_inv timo e c k'.
Proof.
  intros [Hev Hnt (tcb0 & Htcb0 & Hst)] Hevs Htm Hw.
  assert (Hsome : forall e', is_Some (events k !! e') ->
                             is_Some (events k' !! e')).
  { intros e' He'. destruct Hevs as [->|(e0 & ev1 & -> & _)]; [exact He'|].
    apply lookup_insert_is_Some. destruct (decide (e0 = e')); auto. }
  assert (Hback : forall e' ev1,
            events k' !! e' = Some ev1 -> tcb_ptr ev1 = Some c ->
            exists ev0, events k !! e' = Some ev0 /\ tcb_ptr ev0 = Some c).
  { intros e' ev1 He' Hc.
    destruct Hevs as [Heq|(e0 & ev2 & Heq & Hor)]; rewrite Heq in He'.
    - eauto.
    - destruct (decide (e0 = e')) as [->|Hne].
      + rewrite lookup_insert_eq in He'. simplify_eq.
        destruct Hor as [Hn|(ev0 & Hev0 & Hsame)]; [contradiction|].
        exists ev0. split; [exact Hev0|congruence].
      + rewrite lookup_insert_ne in He' by exact Hne. eauto. }
  split.
  - apply Hsome, Hev.
  - intros Htimo e' ev1 cb He' Hc Hcb Hdata.
    destruct (Hback e' ev1 He' Hc) as (ev0 & Hev0 & Hc0).
    destruct (Htm cb Hcb) as [Hold|(e'' & ev2 & Hd & He'' & Hn)].
    + exact (Hnt Htimo e' ev0 cb Hev0 Hc0 Hold Hdata).
    + rewrite Hd in Hdata. injection Hdata as ->.
      rewrite He' in He''. injection He'' as ->. contradiction.
  - destruct (Hw tcb0 Htcb0) as (tcb1 & Htcb1 & Hor).
    exists tcb1. split; [exact Htcb1|].
    intros Hin. destruct Hor as [[-> Hq]|Hor]; auto.
Qed.

Lemma waiter_step_same timo c k k' :
  tcbs k' = tcbs k -> tcbReadyQ k' = tcbReadyQ k -> waiter_step timo c k k'.
Proof.
  intros Ht Hq tcb0 Htcb0. exists tcb0. rewrite Ht, Hq. auto.
Qed.

Lemma waiter_step_other timo c t tcb' k k' :
  t <> c ->
  tcbs k' = <[t := tcb']> (tcbs k) ->
  (forall x, x ∈ tcbReadyQ k' -> x = t \/ x ∈ tcbReadyQ k) ->
  waiter_step timo c k k'.
Proof.
  intros Hne Ht Hq tcb0 Htcb0. exists tcb0.
  rewrite Ht, lookup_insert_ne by exact Hne.
  split; [exact Htcb0|]. left. split; [reflexivity|].
  intros Hin. destruct (Hq c Hin) as [->|]; [contradiction|assumption].
Qed.

Lemma waiter_step_wake timo st c k k' :
  wake_status_of_wait timo st ->
  wake_shape st k k' ->
  waiter_step timo c k k'.
Proof.
  intros Hst [[Ht Hq]|(t & tcb' & _ & Ht & Hs & Hq)].
  - apply waiter_step_same; assumption.
  - destruct (decide (t = c)) as [->|Hne].
    + intros tcb0 _. exists tcb'. rewrite Ht, lookup_insert_eq.
      split; [reflexivity|]. right. rewrite Hs. exact Hst.
    + apply (waiter_step_other timo c t tcb'); assumption.
Qed.

Lemma timers_step_sub c k k' :
  (forall x, x ∈ timers k' -> x ∈ timers k) -> timers_step c k k'.
Proof. intros H cb Hcb. left. auto. Qed.

Lemma remove_timer_sub cb tm x :
  x ∈ SpecKernel.remove_timer cb tm -> x ∈ tm.
Proof.
  induction tm as [|y tm IH]; simpl; [auto|].
  destruct (decide (y = cb)).
  - intros Hx. right. exact Hx.
  - intros Hx. apply elem_of_cons in Hx as [->|Hx]; [left|right; auto].
Qed.

Lemma suspended_inv_step timo e c k k' :
  env_step c k k' -> suspended_inv timo e c k -> suspended_inv timo e c k'.
Proof.
  intros Hstep Hinv.
  destruct Hstep as
    [k q o Hq | k d tcb' Hd | k event | k event r H | k event msk r H
    | k event msk st k' H
    | k event msk value timeout st v k' Hc H
    | k event msk value timeout d v k' Hc H
    | k e0 d value st v k' Hd H
    | k cb k' Hcb H
    | k cb ].
  - (* the scheduler *)
    apply (suspended_inv_update timo e c k); [exact Hinv|left; reflexivity| |].
    + apply timers_step_sub. auto.
    + intros tcb0 Htcb0. exists tcb0. split; [exact Htcb0|]. left. auto.
  - (* the TCB of another thread is written *)
    apply (suspended_inv_update timo e c k); [exact Hinv|left; reflexivity| |].
    + apply timers_step_sub. auto.
    + apply (waiter_step_other timo c d tcb'); auto.
  - (* create *)
    apply (suspended_inv_update timo e c k); [exact Hinv| | |].
    + destruct event as [e0|]; simpl; [|left; reflexivity].
      right. do 2 eexists. split; [reflexivity|]. left. simpl. discriminate.
    + apply timers_step_sub. destruct event; simpl; auto.
    + apply waiter_step_same; destruct event; reflexivity.
  - (* delete *)
    destruct (atomEventDelete_shape event k r H) as (_ & Hev & Htm & Hw).
    apply (suspended_inv_update timo e c k); [exact Hinv|left; exact Hev| |].
    + apply timers_step_sub. exact Htm.
    + apply (waiter_step_wake timo ATOM_ERR_DELETED); auto.
      right. left. reflexivity.
  - (* set *)
    destruct (atomEventSet_shape event msk k r H) as (_ & Hev & Htm & Hw).
    apply (suspended_inv_update timo e c k); [exact Hinv| | |].
    + destruct Hev as [Hev|(e0 & ev0 & Hev0 & Hev)]; [left; exact Hev|].
      right. do 2 eexists. split; [exact Hev|]. right.
      exists ev0. split; [exact Hev0|reflexivity].
    + apply timers_step_sub. exact Htm.
    + apply (waiter_step_wake timo ATOM_OK); auto.
      left. reflexivity.
  - (* clear *)
    destruct event as [e0|]; simpl in H.
    2:{ simplify_eq. exact Hinv. }
    destruct (events k !! e0) as [ev0|] eqn:Hev0; [|discriminate].
    simpl in H. simplify_eq.
    apply (suspended_inv_update timo e c k); [exact Hinv| | |].
    + right. do 2 eexists. split; [reflexivity|]. right.
      exists ev0. split; [exact Hev0|reflexivity].
    + apply timers_step_sub. auto.
    + apply waiter_step_same; reflexivity.
  - (* wait that returns *)
    destruct (atomEventWait_shape _ _ _ _ _ _ H) as (_ & Hq & Hor).
    simpl in Hq, Hor.
    destruct Hor as [->|(e0 & ev0 & d & tcb & ev1 & tcb1 & Hcur & Hev0 & Htcb
                         & Hev & Hslot & Ht & _ & Htm)]; [exact Hinv|].
    assert (Hdc : d <> c) by congruence.
    assert (Hn : tcb_ptr ev1 <> Some c).
    { destruct Hslot as [Hs|[Hs _]]; rewrite Hs; congruence. }
    apply (suspended_inv_update timo e c k); [exact Hinv| | |].
    + right. do 2 eexists. split; [exact Hev|]. left. exact Hn.
    + intros x Hx. destruct (Htm x Hx) as [Hold|Hdata]; [left; exact Hold|].
      right. exists e0, ev1. rewrite Hev, lookup_insert_eq. auto.
    + apply (waiter_step_other timo c d tcb1); auto.
      rewrite Hq. auto.
  - (* wait that suspends its caller *)
    destruct (atomEventWait_shape _ _ _ _ _ _ H) as (_ & Hq & Hor).
    simpl in Hq, Hor.
    destruct Hor as [->|(e0 & ev0 & d' & tcb & ev1 & tcb1 & Hcur & Hev0 & Htcb
                         & Hev & Hslot & Ht & _ & Htm)]; [exact Hinv|].
    assert (Hdc : d' <> c) by congruence.
    assert (Hn : tcb_ptr ev1 <> Some c).
    { destruct Hslot as [Hs|[Hs _]]; rewrite Hs; congruence. }
    apply (suspended_inv_update timo e c k); [exact Hinv| | |].
    + right. do 2 eexists. split; [exact Hev|]. left. exact Hn.
    + intros x Hx. destruct (Htm x Hx) as [Hold|Hdata]; [left; exact Hold|].
      right. exists e0, ev1. rewrite Hev, lookup_insert_eq. auto.
    + apply (waiter_step_other timo c d' tcb1); auto.
      rewrite Hq. auto.
  - (* another thread resumes *)
    unfold atomEventWait_resume in H.
    destruct (tcbs k !! d) as [tcb|]; [|discriminate]. simpl in H.
    destruct (events k !! e0) as [ev0|]; [|discriminate]. simpl in H.
    simplify_eq.
    apply (suspended_inv_update timo e c k); [exact Hinv| | |].
    + right. do 2 eexists. split; [reflexivity|]. left. simpl. discriminate.
    + apply timers_step_sub. auto.
    + apply waiter_step_same; reflexivity.
  - (* a pending timer fires *)
    destruct (atomEventTimerCallback_shape _ _ _ H)
      as (_ & Hev & Htm & [->|(e0 & ev0 & t & tcb' & Hdata & Hev0 & Ht & Htcb
                               & Htcbs & Hst & Hq)]); [exact Hinv|].
    apply (suspended_inv_update timo e c k); [exact Hinv|left; exact Hev| |].
    + apply timers_step_sub. rewrite Htm. auto.
    + destruct timo.
      * apply (waiter_step_wake true ATOM_TIMEOUT).
        -- right. right. split; reflexivity.
        -- right. exists t, tcb'. auto.
      * apply (waiter_step_other false c t tcb'); auto.
        intros ->.
        exact (inv_no_timer false e c k Hinv eq_refl e0 ev0 cb Hev0 Ht Hcb Hdata).
  - (* the timer subsystem drops a request *)
    apply (suspended_inv_update timo e c k); [exact Hinv|left; reflexivity| |].
    + apply timers_step_sub. simpl. intros x. apply remove_timer_sub.
    + apply waiter_step_same; reflexivity.
Qed.

Lemma suspended_inv_steps timo e c k k' :
  env_steps c k k' -> suspended_inv timo e c k -> suspended_inv timo e c k'.
Proof.
  induction 1 as [|k1 k2 k3 _ IH Hstep]; [auto|].
  intros Hinv. apply (suspended_inv_step timo e c k2 k3 Hstep). auto.
Qed.

End Frames.

(** *** A wait that finds no flag set *)

(** The blocking path of [atomEventWait], to the call of the scheduler. *)
Lemma atomEventWait_blocks e ev c tcb msk value timeout k :
  events k !! e = Some ev ->
  Z.land (flags ev) msk = 0 ->
  timeout >= 0 ->
  curr_tcb k = Some c ->
  tcb_ptr ev = None ->
  tcbs k !! c = Some tcb ->
  let timer_cb :=
    mkTimer atomEventTimerCallback_func (Some e) (timeout mod 2 ^ 32) in
  (timeout <> 0 -> (atomTimerRegister (timers k) timer_cb).1 = ATOM_OK) ->
  atomEventWait (Some e) msk value timeout k
  = Some (WaitSched c (store_value value 0)
            (mkKernel
               (<[e := mkEvent (Some c) (flags ev) msk]> (events k))
               (<[c := mkTcb (priority tcb) true (suspend_wake_status tcb)
                         (if decide (timeout = 0) then None else Some timer_cb)]>
                  (tcbs k))
               (tcbReadyQ k)
               (if decide (timeout = 0) then timers k
                else (atomTimerRegister (timers k) timer_cb).2)
               (curr_tcb k))).
Proof.
  intros Hev Hz Hto Hc Hfree Htcb timer_cb Hreg. unfold atomEventWait.
  rewrite Hev. simpl.
  destruct (decide (Z.land (flags ev) msk = 0)); [|contradiction].
  destruct (decide (timeout >= 0)); [|contradiction].
  rewrite Hc, Hfree, Htcb. simpl.
  destruct (decide (timeout <> 0)) as [Hne|He].
  - destruct (decide (timeout = 0)); [contradiction|].
    specialize (Hreg Hne). fold timer_cb.
    destruct (atomTimerRegister (timers k) timer_cb) as [st tm].
    simpl in Hreg. subst st.
    destruct (decide (ATOM_OK <> ATOM_OK)); [contradiction|]. reflexivity.
  - destruct (decide (timeout = 0)); [reflexivity|contradiction].
Qed.

(** A thread suspended by a wait and found on the ready queue later
    resumes with one of the wake statuses of a wait: ATOM_OK,
    ATOM_ERR_DELETED or ATOM_TIMEOUT, and not the last one ([timo = false])
    if it gave no timeout and no timer was pending for the event. *)
Lemma wait_resume_status timo e ev c tcb msk value timeout k :
  services_frame KS ->
  events k !! e = Some ev ->
  Z.land (flags ev) msk = 0 ->
  timeout >= 0 ->
  curr_tcb k = Some c ->
  tcb_ptr ev = None ->
  tcbs k !! c = Some tcb ->
  (timeout <> 0 ->
   (atomTimerRegister (timers k)
      (mkTimer atomEventTimerCallback_func (Some e) (timeout mod 2 ^ 32))).1
   = ATOM_OK) ->
  (timo = false ->
   timeout = 0
   /\ (forall e' ev', events k !! e' = Some ev' -> tcb_ptr ev' <> Some c)
   /\ (forall cb, cb ∈ timers k -> cb_data cb <> Some e)) ->
  c ∉ tcbReadyQ k ->
  exists k1,
    atomEventWait (Some e) msk value timeout k
    = Some (WaitSched c (store_value value 0) k1)
    /\ forall k2,
        env_steps c k1 k2 ->
        c ∈ tcbReadyQ k2 ->
        exists st value' k3,
          atomEventWait_resume e c (store_value value 0) k2
          = Some (st, value', k3)
          /\ wake_status_of_wait timo st.
Proof.
  intros frame Hev Hz Hto Hc Hfree Htcb Hreg Hzero Hnotready.
  eexists. split.
  { apply (atomEventWait_blocks e ev c tcb msk value timeout k); auto. }
  intros k2 Hsteps Hready.
  match type of Hsteps with env_steps c ?k1 k2 =>
    assert (Hinv : suspended_inv timo e c k1) end.
  { split; simpl.
    - rewrite lookup_insert_eq. eauto.
    - intros Htimo e' ev' cb He' Hc' Hcb Hdata.
      destruct (Hzero Htimo) as (Hto0 & Hnowait & Hnotimer).
      destruct (decide (timeout = 0)); [|contradiction].
      destruct (decide (e = e')) as [<-|Hne].
      + exact (Hnotimer cb Hcb Hdata).
      + rewrite lookup_insert_ne in He' by exact Hne.
        exact (Hnowait e' ev' He' Hc').
    - rewrite lookup_insert_eq. eexists. split; [reflexivity|].
      intros Hin. contradiction. }
  pose proof (suspended_inv_steps frame _ e c _ k2 Hsteps Hinv)
    as [[ev2 Hev2] _ (tcb2 & Htcb2 & Hst)].
  do 3 eexists.
  split; [apply (atomEventWait_resume_eq e ev2 c tcb2); assumption|].
  apply Hst, Hready.
Qed.




(** *** Calls that are refused *)

(** C9 (as amended): each of the five operations, called with a null
    event, returns ATOM_ERR_PARAM and leaves the kernel state, and for
    [atomEventWait] the value out-parameter, as they are; so does
    [atomEventSet] with a zero mask; and whenever an operation returns
    ATOM_ERR_PARAM the state is the one before the call.  When
    [atomEventWait] returns ATOM_ERR_CONTEXT the kernel state (event,
    TCBs, ready queue, timers) is the one before the call, and the value
    out-parameter, if not null, has been set to 0. *)
Theorem refused_calls_leave_state msk value timeout k :
  (atomEventCreate None k = (ATOM_ERR_PARAM, k)
   /\ atomEventDelete None k = Some (mkResult ATOM_ERR_PARAM k false)
   /\ atomEventWait None msk value timeout k
      = Some (WaitReturn ATOM_ERR_PARAM value k)
   /\ atomEventSet None msk k = Some (mkResult ATOM_ERR_PARAM k false)
   /\ atomEventClear None msk k = Some (ATOM_ERR_PARAM, k))
  /\ (forall e,
        atomEventSet (Some e) 0 k = Some (mkResult ATOM_ERR_PARAM k false))
  /\ (forall event k',
        atomEventCreate event k = (ATOM_ERR_PARAM, k') -> k' = k)
  /\ (forall event r,
        atomEventDelete event k = Some r -> ret r = ATOM_ERR_PARAM ->
        post r = k)
  /\ (forall event r,
        atomEventSet event msk k = Some r -> ret r = ATOM_ERR_PARAM ->
        post r = k)
  /\ (forall event k',
        atomEventClear event msk k = Some (ATOM_ERR_PARAM, k') -> k' = k)
  /\ (forall event value' k',
        atomEventWait event msk value timeout k
        = Some (WaitReturn ATOM_ERR_PARAM value' k') ->
        k' = k /\ value' = value)
  /\ (forall event value' k',
        atomEventWait event msk value timeout k
        = Some (WaitReturn ATOM_ERR_CONTEXT value' k') ->
        k' = k
        /\ value' = match value with Some _ => Some 0 | None => None end)
  /\ (forall e ev,
        events k !! e = Some ev ->
        Z.land (flags ev) msk = 0 ->
        timeout >= 0 ->
        curr_tcb k = None ->
        atomEventWait (Some e) msk value timeout k
        = Some (WaitReturn ATOM_ERR_CONTEXT
                  (match value with Some _ => Some 0 | None => None end) k))
  /\ (services_frame KS ->
      forall e ev c tcb,
        events k !! e = Some ev ->
        Z.land (flags ev) msk = 0 ->
        timeout >= 0 ->
        curr_tcb k = Some c ->
        tcb_ptr ev = None ->
        tcbs k !! c = Some tcb ->
        (timeout <> 0 ->
         (atomTimerRegister (timers k)
            (mkTimer atomEventTimerCallback_func (Some e)
               (timeout mod 2 ^ 32))).1 = ATOM_OK) ->
        c ∉ tcbReadyQ k ->
        exists k1,
          atomEventWait (Some e) msk value timeout k
          = Some (WaitSched c (store_value value 0) k1)
          /\ forall k2,
              env_steps c k1 k2 ->
              c ∈ tcbReadyQ k2 ->
              exists st value' k3,
                atomEventWait_resume e c (store_value value 0) k2
                = Some (st, value', k3)
                /\ st <> ATOM_ERR_PARAM /\ st <> ATOM_ERR_CONTEXT).
Proof.
  split; [repeat split|].
  split; [reflexivity|].
  split.
  { intros [e|] k' H; simpl in H; congruence. }
  split.
  { intros [e|] r H Hret; simpl in H; [|by simplify_eq].
    unfold atomEventDelete in H.
    repeat (simplify_option_eq || case_match); simpl in *; congruence. }
  split.
  { intros [e|] r H Hret; simpl in H; [|by simplify_eq].
    unfold atomEventSet in H.
    repeat (simplify_option_eq || case_match); simpl in *; congruence. }
  split.
  { intros [e|] k' H; simpl in H; [|by simplify_eq].
    unfold atomEventClear in H.
    repeat (simplify_option_eq || case_match); simpl in *; congruence. }
  split.
  { intros [e|] value' k' H; simpl in H; [|by simplify_eq].
    unfold atomEventWait in H.
    repeat (simplify_option_eq || case_match); simpl in *; congruence. }
  split.
  { intros [e|] value' k' H; simpl in H; [|by simplify_eq].
    unfold atomEventWait in H.
    repeat (simplify_option_eq || case_match); simpl in *;
      try congruence; split; reflexivity. }
  split.
  { intros e ev Hev Hz Hto Hc. unfold atomEventWait.
    rewrite Hev. simpl.
    destruct (decide (Z.land (flags ev) msk = 0)); [|contradiction].
    destruct (decide (timeout >= 0)); [|contradiction].
    rewrite Hc. reflexivity. }
  intros frame e ev c tcb Hev Hz Hto Hc Hfree Htcb Hreg Hnotready.
  destruct (wait_resume_status true e ev c tcb msk value timeout k frame
              Hev Hz Hto Hc Hfree Htcb Hreg) as (k1 & Hw & Hres);
    [discriminate|exact Hnotready|].
  exists k1. split; [exact Hw|].
  intros k2 Hsteps Hready.
  destruct (Hres k2 Hsteps Hready) as (st & value' & k3 & Hr & Hst).
  exists st, value', k3. split; [exact Hr|].
  destruct Hst as [->|[->|[_ ->]]]; split; discriminate.
Qed.

(** *** The wait mask of an event without waiter is zero *)

Lemma events_wf_insert e ev1 k k' :
  events_wf k -> event_wf ev1 ->
  events k' = <[e := ev1]> (events k) ->
  events_wf k'.
Proof.
  intros Hwf H1 Heq e' ev' He'. rewrite Heq in He'.
  destruct (decide (e = e')) as [<-|Hne].
  - rewrite lookup_insert_eq in He'. injection He' as <-. exact H1.
  - rewrite lookup_insert_ne in He' by exact Hne. exact (Hwf e' ev' He').
Qed.

Lemma events_wf_same k k' :
  events_wf k -> events k' = events k -> events_wf k'.
Proof. intros Hwf Heq e ev He. rewrite Heq in He. exact (Hwf e ev He). Qed.

(** [atomEventCreate] establishes it and every operation keeps it. *)
Lemma events_wf_preserved k :
  services_frame KS ->
  events_wf k ->
  (forall event, events_wf (atomEventCreate event k).2)
  /\ (forall event r, atomEventDelete event k = Some r -> events_wf (post r))
  /\ (forall event msk r,
        atomEventSet event msk k = Some r -> events_wf (post r))
  /\ (forall event msk st k',
        atomEventClear event msk k = Some (st, k') -> events_wf k')
  /\ (forall event msk value timeout o,
        atomEventWait event msk value timeout k = Some o ->
        events_wf (outcome_state o))
  /\ (forall e c value st v k',
        atomEventWait_resume e c value k = Some (st, v, k') -> events_wf k')
  /\ (forall cb_data k',
        atomEventTimerCallback cb_data k = Some k' -> events_wf k').
Proof.
  intros frame Hwf. split_and!.
  - intros [e|]; simpl; [|exact Hwf].
    apply (events_wf_insert e (mkEvent None 0 0) k); auto.
    intros _. reflexivity.
  - intros event r H.
    destruct (atomEventDelete_shape frame event k r H) as (_ & Hev & _).
    apply (events_wf_same k); assumption.
  - intros event msk r H.
    destruct (atomEventSet_shape frame event msk k r H)
      as (_ & [Hev|(e & ev & Hev0 & Hev)] & _).
    + apply (events_wf_same k); assumption.
    + apply (events_wf_insert e _ k _ Hwf) in Hev; [exact Hev|].
      exact (Hwf e ev Hev0).
  - intros [e|] msk st k' H; simpl in H; [|simplify_eq; exact Hwf].
    destruct (events k !! e) as [ev|] eqn:Hev; [|discriminate].
    simpl in H. simplify_eq.
    apply (events_wf_insert e
             (mkEvent (tcb_ptr ev) (Z.land (flags ev) (not32 msk)) (mask ev)) k);
      auto.
    exact (Hwf e ev Hev).
  - intros event msk value timeout o H.
    destruct (atomEventWait_shape frame _ _ _ _ _ _ H)
      as (_ & _ & [->|(e & ev & d & tcb & ev1 & tcb1 & _ & _ & _ & Hev
                       & Hslot & _)]); [exact Hwf|].
    apply (events_wf_insert e ev1 k); auto.
    intros Hnone. destruct Hslot as [Hs|[_ Hm]]; [congruence|exact Hm].
  - intros e c value st v k' H. unfold atomEventWait_resume in H.
    destruct (tcbs k !! c); [|discriminate]. simpl in H.
    destruct (events k !! e) as [ev|]; [|discriminate]. simpl in H.
    simplify_eq.
    apply (events_wf_insert e (mkEvent None (flags ev) 0) k); auto.
    intros _. reflexivity.
  - intros cb_data k' H.
    destruct (atomEventTimerCallback_shape frame _ _ _ H) as (_ & Hev & _).
    apply (events_wf_same k); assumption.
Qed.

End Properties.

(** ** The reference kernel services *)



(** ** The scenarios are executions of the library *)

Import Scenario.

Example blocked_by_wait :
  atomEventWait (KS := SpecKernel.services) (Some E) 1 (Some 7) 0 created
  = Some (WaitSched T (Some 0) blocked).
Proof. vm_compute. reflexivity. Qed.

Example blocked_timo_by_wait :
  atomEventWait (KS := SpecKernel.services) (Some E) 1 (Some 7) 5 created
  = Some (WaitSched T (Some 0) blocked_timo).
Proof. vm_compute. reflexivity. Qed.


(** ** Where the code departs from the stated behaviour *)

(** C1, as stated, fails.  [T] waits on [E] with wait mask 1 and has been
    woken by [atomEventSet (E, 1)]; it has not run yet, so it still occupies
    the waiter slot.  [atomEventSet (E, 2)], whose mask is disjoint from the
    wait mask, finds [flags & wait mask] non-zero after the update and hands
    [T] to the ready queue once more. *)
Lemma atomEventSet_disjoint_mask_wakes :
  events woken !! E = Some (mkEvent (Some T) 1 1)
  /\ Z.land 2 1 = 0
  /\ tcbReadyQ woken = [T]
  /\ atomEventSet (KS := SpecKernel.services) (Some E) 2 woken
     = Some (mkResult ATOM_OK
               (mkKernel {[ E := mkEvent (Some T) 3 1 ]}
                  {[ T := mkTcb 16 true ATOM_OK None; MAIN := fresh_tcb 16 ]}
                  [T; T] [] None) false).
Proof. vm_compute. repeat split. Qed.



(** The condition of C4 on pending timers is needed: with a request for
    [E] left in the timers, a wait with timeout 0 blocks, the callback of
    that request fires, and the wait returns ATOM_TIMEOUT. *)
Example stale_timer_ends_wait_forever :
  let k := mkKernel (events created) (tcbs created) (tcbReadyQ created)
             [timer5] (curr_tcb created) in
  exists k1 k2 k3,
    atomEventWait (KS := SpecKernel.services) (Some E) 1 (Some 7) 0 k
    = Some (WaitSched T (Some 0) k1)
    /\ timer5 ∈ timers k1
    /\ atomEventTimerCallback (KS := SpecKernel.services) (cb_data timer5) k1
       = Some k2
    /\ atomEventWait_resume E T (Some 0) k2 = Some (ATOM_TIMEOUT, Some 0, k3).
Proof.
  do 3 eexists. split; [vm_compute; reflexivity|].
  split; [apply list_elem_of_here|].
  split; [vm_compute; reflexivity|].
  vm_compute. reflexivity.
Qed.

(** C5, as stated, fails.  [atomEventSet] wakes [T] and leaves it in the
    waiter slot of [E]; so do [atomEventDelete] and the timeout callback,
    after which [T], resuming with ATOM_ERR_DELETED or ATOM_TIMEOUT, finds
    the slot still occupied. *)
Lemma wakers_keep_waiter_slot :
  atomEventSet (KS := SpecKernel.services) (Some E) 1 (in_isr blocked)
  = Some (mkResult ATOM_OK
            (mkKernel {[ E := mkEvent (Some T) 1 1 ]}
               {[ T := mkTcb 16 true ATOM_OK None; MAIN := fresh_tcb 16 ]}
               [T] [] None) false)
  /\ atomEventDelete (KS := SpecKernel.services) (Some E) (in_isr blocked_timo)
     = Some (mkResult ATOM_OK
               (mkKernel {[ E := mkEvent (Some T) 0 1 ]}
                  {[ T := mkTcb 16 true ATOM_ERR_DELETED None;
                     MAIN := fresh_tcb 16 ]}
                  [T] [] None) false)
  /\ atomEventTimerCallback (KS := SpecKernel.services) (Some E)
       (in_isr blocked_timo)
     = Some (mkKernel {[ E := mkEvent (Some T) 0 1 ]}
               {[ T := mkTcb 16 true ATOM_TIMEOUT None; MAIN := fresh_tcb 16 ]}
               [T] [timer5] None)
  /\ mkEvent (Some T) 1 1 <> mkEvent None 1 1.
Proof. vm_compute. repeat split. discriminate. Qed.

(** C9, as stated, fails.  Called from an interrupt handler with timeout 0
    and no flag of the mask set, [atomEventWait] returns ATOM_ERR_CONTEXT
    and the caller's value, 5 before the call, is 0 after it. *)
Lemma atomEventWait_context_error_writes_value :
  atomEventWait (KS := SpecKernel.services) (Some E) 1 (Some 5) 0
    (in_isr created)
  = Some (WaitReturn ATOM_ERR_CONTEXT (Some 0) (in_isr created))
  /\ Some 0 <> Some 5.
Proof. vm_compute. split; [reflexivity|discriminate]. Qed.

(** ** The theorems at work on the scenarios *)

Lemma atomEventWait_flags_already_set_witness :
  atomEventWait (KS := SpecKernel.services) (Some E) 3 (Some 7) 5 woken
  = Some (WaitReturn ATOM_OK (Some 1) woken).
Proof.
  apply (atomEventWait_flags_already_set (KS := SpecKernel.services)
           E (mkEvent (Some T) 1 1) 3 (Some 7) 5 woken).
  - reflexivity.
  - vm_compute. discriminate.
Defined.

Lemma atomEventWait_slot_occupied_witness :
  atomEventWait (KS := SpecKernel.services) (Some E) 2 (Some 7) 0
    (switch_to MAIN blocked)
  = Some (WaitReturn ATOM_ERR_QUEUE (Some 0) (switch_to MAIN blocked)).
Proof.
  apply (atomEventWait_slot_occupied (KS := SpecKernel.services)
           E (mkEvent (Some T) 0 1) T MAIN 2 (Some 7) 0 (switch_to MAIN blocked)).
  - reflexivity.
  - reflexivity.
  - lia.
  - reflexivity.
  - reflexivity.
Defined.

Lemma atomEventClear_spec_witness :
  exists k',
    atomEventClear (Some E) 1 woken = Some (ATOM_OK, k')
    /\ events k' = <[E := mkEvent (Some T) 0 1]> (events woken)
    /\ tcbs k' = tcbs woken
    /\ tcbReadyQ k' = tcbReadyQ woken.
Proof.
  destruct (atomEventClear_spec E (mkEvent (Some T) 1 1) 1 woken)
    as [(k' & Hclr & Hev & Ht & Hq & _) _].
  - reflexivity.
  - exists k'. repeat split; assumption.
Defined.

Lemma atomEventSet_spec_witness :
  exists r,
    atomEventSet (KS := SpecKernel.services) (Some E) 1 (in_isr blocked) = Some r
    /\ events (post r) = <[E := mkEvent (Some T) 1 1]> (events (in_isr blocked))
    /\ tcbReadyQ (post r) = [T]
    /\ suspend_wake_status <$> tcbs (post r) !! T = Some ATOM_OK.
Proof.
  destruct (atomEventSet_spec (KS := SpecKernel.services)
              E (mkEvent (Some T) 0 1) 1 (in_isr blocked))
    as [(r & Hset & Hev & _ & Hwake & _) _].
  - reflexivity.
  - discriminate.
  - intros t [= <-]. vm_compute. eauto.
  - destruct (Hwake T eq_refl) as (Hq & Hok & _).
    + vm_compute. discriminate.
    + destruct (Hok eq_refl) as (Hst & _).
      exists r. repeat split; assumption.
Defined.


Lemma waiter_slot_cleared_on_resume_witness :
  exists r value' k',
    atomEventDelete (KS := SpecKernel.services) (Some E) (in_isr blocked_timo)
    = Some r
    /\ events (post r) !! E = Some (mkEvent (Some T) 0 1)
    /\ atomEventWait_resume E T (Some 0) (in_isr blocked_timo)
       = Some (ATOM_OK, value', k')
    /\ events k' !! E = Some (mkEvent None 0 0).
Proof.
  destruct (waiter_slot_cleared_on_resume (KS := SpecKernel.services)
              E (mkEvent (Some T) 0 1) T (mkTcb 16 true ATOM_OK (Some timer5))
              (in_isr blocked_timo))
    as (_ & (r & Hdel & Hev & _) & _ & Hres).
  - reflexivity.
  - reflexivity.
  - reflexivity.
  - destruct (Hres (Some 0)) as (value' & k' & Hr & Hev').
    exists r, value', k'. repeat split; assumption.
Defined.

Lemma refused_calls_leave_state_witness :
  atomEventWait (KS := SpecKernel.services) (Some E) 1 (Some 5) 0
    (in_isr created)
  = Some (WaitReturn ATOM_ERR_CONTEXT (Some 0) (in_isr created)).
Proof.
  destruct (refused_calls_leave_state (KS := SpecKernel.services)
              1 (Some 5) 0 (in_isr created))
    as (_ & _ & _ & _ & _ & _ & _ & _ & Hctx & _).
  apply (Hctx E (mkEvent None 0 0)).
  - reflexivity.
  - reflexivity.
  - lia.
  - reflexivity.
Defined.

Lemma atomEventDelete_spec_witness :
  (exists r,
      atomEventDelete (KS := SpecKernel.services) (Some E)
        (switch_to MAIN blocked_timo) = Some r
      /\ ret r = ATOM_OK
      /\ sched r = true
      /\ tcbs (post r) !! T = Some (mkTcb 16 true ATOM_ERR_DELETED None)
      /\ tcbReadyQ (post r) = [T]
      /\ timers (post r) = [])
  /\ (exists k',
        atomEventDelete (KS := FaultyKernel.services) (Some E)
          (switch_to MAIN blocked_timo)
        = Some (mkResult ATOM_ERR_QUEUE k' false)
        /\ tcbs k' !! T = Some (mkTcb 16 true ATOM_ERR_DELETED (Some timer5))
        /\ timers k' = [timer5])
  /\ (exists k',
        atomEventDelete (KS := FaultyKernel.timer_services) (Some E)
          (switch_to MAIN blocked_timo)
        = Some (mkResult ATOM_ERR_TIMER k' false)
        /\ tcbs k' !! T = Some (mkTcb 16 true ATOM_ERR_DELETED (Some timer5))
        /\ tcbReadyQ k' = [T]).
Proof.
  split; [|split].
  - destruct (atomEventDelete_spec (KS := SpecKernel.services)
                E (mkEvent (Some T) 0 1) T (mkTcb 16 true ATOM_OK (Some timer5))
                (switch_to MAIN blocked_timo))
      as (Hok & _).
    + reflexivity.
    + reflexivity.
    + reflexivity.
    + destruct Hok as (r & Hdel & Hret & Hsched & _ & Htcbs & Hq & Htm).
      * reflexivity.
      * intros cb [= <-]. vm_compute. reflexivity.
      * exists r. rewrite Htcbs. repeat split; assumption.
  - destruct (atomEventDelete_spec (KS := FaultyKernel.services)
                E (mkEvent (Some T) 0 1) T (mkTcb 16 true ATOM_OK (Some timer5))
                (switch_to MAIN blocked_timo))
      as (_ & Hqueue & _).
    + reflexivity.
    + reflexivity.
    + reflexivity.
    + eexists. split; [apply Hqueue; simpl; discriminate|].
      split; reflexivity.
  - destruct (atomEventDelete_spec (KS := FaultyKernel.timer_services)
                E (mkEvent (Some T) 0 1) T (mkTcb 16 true ATOM_OK (Some timer5))
                (switch_to MAIN blocked_timo))
      as (_ & _ & Htimer & _).
    + reflexivity.
    + reflexivity.
    + reflexivity.
    + eexists. split; [apply (Htimer eq_refl timer5 eq_refl); simpl; discriminate|].
      split; reflexivity.
Defined.

Lemma atomEventWait_register_fails_witness :
  exists k',
    atomEventWait (KS := FaultyKernel.timer_services) (Some E) 1 (Some 7) 5
      created
    = Some (WaitReturn ATOM_ERR_TIMER (Some 0) k')
    /\ events k' = events created
    /\ tcbs k' = tcbs created.
Proof.
  destruct (atomEventWait_register_fails (KS := FaultyKernel.timer_services)
              E (mkEvent None 0 0) T (fresh_tcb 16) 1 (Some 7) 5 created)
    as (k' & Hw & _ & _ & _ & _ & Hev & Htcb).
  - reflexivity.
  - reflexivity.
  - lia.
  - reflexivity.
  - reflexivity.
  - reflexivity.
  - simpl. discriminate.
  - exists k'. split; [exact Hw|]. split.
    + apply Hev. intros _. reflexivity.
    + apply Htcb. split; reflexivity.
Defined.



(** ** Further properties of the event library *)

Section MoreProperties.

Context {KS : KernelServices}.

Implicit Types (k : Kernel) (e c t : ptr) (ev : ATOM_EVENT) (tcb : ATOM_TCB).
Implicit Types (msk timeout : Z) (value : option Z).

(** *** What each operation does to the events *)

(** A set that wakes nobody. *)
Lemma atomEventSet_quiet e ev msk k :
  events k !! e = Some ev ->
  msk <> 0 ->
  tcb_ptr ev = None \/ Z.land (Z.lor (flags ev) msk) (mask ev) = 0 ->
  atomEventSet (Some e) msk k
  = Some (mkResult ATOM_OK
            (with_events
               (<[e := mkEvent (tcb_ptr ev) (Z.lor (flags ev) msk) (mask ev)]>
                  (events k)) k) false).
Proof.
  intros Hev Hmsk Hq. unfold atomEventSet.
  destruct (decide (msk = 0)); [contradiction|].
  rewrite Hev. simpl.
  destruct (tcb_ptr ev) as [t|]; [|reflexivity].
  destruct Hq as [Hq|Hq]; [discriminate|].
  destruct (decide (Z.land (Z.lor (flags ev) msk) (mask ev) <> 0));
    [contradiction|reflexivity].
Qed.

Lemma atomEventSet_events event msk k r :
  atomEventSet event msk k = Some r ->
  events (post r) = events k
  \/ exists e ev,
       event = Some e /\ events k !! e = Some ev
       /\ events (post r)
          = <[e := mkEvent (tcb_ptr ev) (Z.lor (flags ev) msk) (mask ev)]>
              (events k).
Proof.
  intros H. destruct event as [e|]; simpl in H; [|left; by simplify_eq].
  destruct (decide (msk = 0)); [left; by simplify_eq|].
  destruct (events k !! e) as [ev|] eqn:Hev; [|discriminate].
  right. exists e, ev. split; [reflexivity|]. split; [exact Hev|].
  simpl in H.
  repeat (simplify_option_eq || case_match); reflexivity.
Qed.

Lemma atomEventDelete_events event k r :
  atomEventDelete event k = Some r -> events (post r) = events k.
Proof.
  intros H. destruct event as [e|]; simpl in H; [|by simplify_eq].
  repeat (simplify_option_eq || case_match); reflexivity.
Qed.

Lemma atomEventTimerCallback_events cb_data k k' :
  atomEventTimerCallback cb_data k = Some k' -> events k' = events k.
Proof.
  intros H. destruct cb_data as [e|]; simpl in H; [|by simplify_eq].
  repeat (simplify_option_eq || case_match); reflexivity.
Qed.

(** What a wait can have changed when it stops running: nothing, or the
    event waited on and the TCB of the caller, on the blocking path. *)
Lemma atomEventWait_inv event msk value timeout k o :
  atomEventWait event msk value timeout k = Some o ->
  outcome_state o = k
  \/ exists e ev c tcb ev1 s' timo' tm,
       event = Some e
       /\ events k !! e = Some ev
       /\ tcb_ptr ev = None
       /\ curr_tcb k = Some c
       /\ tcbs k !! c = Some tcb
       /\ (ev1 = mkEvent (Some c) (flags ev) msk
           \/ ev1 = mkEvent None (flags ev) 0)
       /\ outcome_state o
          = mkKernel (<[e := ev1]> (events k))
              (<[c := mkTcb (priority tcb) s' (suspend_wake_status tcb) timo']>
                 (tcbs k))
              (tcbReadyQ k) tm (curr_tcb k).
Proof.
  intros H. destruct event as [e|]; simpl in H; [|left; by simplify_eq].
  destruct (events k !! e) as [ev|] eqn:Hev; [|discriminate].
  simpl in H.
  destruct (decide (Z.land (flags ev) msk = 0)); [|left; by simplify_eq].
  destruct (decide (timeout >= 0)); [|left; by simplify_eq].
  destruct (curr_tcb k) as [c|] eqn:Hc; [|left; by simplify_eq].
  destruct (tcb_ptr ev) as [t|] eqn:Ht; [left; by simplify_eq|].
  destruct (tcbs k !! c) as [tcb|] eqn:Htcb; [|discriminate].
  simpl in H. right. exists e, ev, c, tcb.
  destruct (decide (timeout <> 0)).
  - destruct (atomTimerRegister _ _) as [st tm].
    destruct (decide (st <> ATOM_OK)); simplify_eq; simpl;
      do 4 eexists; split_and!; try reflexivity; auto.
  - simplify_eq; simpl. do 4 eexists. split_and!; try reflexivity; auto.
Qed.

(** *** The wait mask of an event without waiter *)

(** X1: [atomEventCreate] gives its event no waiter and a zero wait mask,
    and every operation of the library, whatever the kernel services do,
    keeps the events such that an event without waiter has a zero wait
    mask. *)
Theorem events_wf_invariant k :
  events_wf k ->
  (forall event, events_wf (atomEventCreate event k).2)
  /\ (forall e, events (atomEventCreate (Some e) k).2 !! e
                = Some (mkEvent None 0 0))
  /\ (forall event r, atomEventDelete event k = Some r -> events_wf (post r))
  /\ (forall event msk r,
        atomEventSet event msk k = Some r -> events_wf (post r))
  /\ (forall event msk st k',
        atomEventClear event msk k = Some (st, k') -> events_wf k')
  /\ (forall event msk value timeout o,
        atomEventWait event msk value timeout k = Some o ->
        events_wf (outcome_state o))
  /\ (forall e c value st v k',
        atomEventWait_resume e c value k = Some (st, v, k') -> events_wf k')
  /\ (forall cb_data k',
        atomEventTimerCallback cb_data k = Some k' -> events_wf k').
Proof.
  intros Hwf. split_and!.
  - intros [e|]; simpl; [|exact Hwf].
    apply (events_wf_insert e (mkEvent None 0 0) k); auto.
    intros _. reflexivity.
  - intros e. simpl. apply lookup_insert_eq.
  - intros event r H.
    apply (events_wf_same k); [exact Hwf|].
    exact (atomEventDelete_events event k r H).
  - intros event msk r H.
    destruct (atomEventSet_events event msk k r H)
      as [Hev|(e & ev & _ & Hev0 & Hev)].
    + apply (events_wf_same k); assumption.
    + apply (events_wf_insert e _ k _ Hwf) in Hev; [exact Hev|].
      exact (Hwf e ev Hev0).
  - intros [e|] msk st k' H; simpl in H; [|simplify_eq; exact Hwf].
    destruct (events k !! e) as [ev|] eqn:Hev; [|discriminate].
    simpl in H. simplify_eq.
    apply (events_wf_insert e
             (mkEvent (tcb_ptr ev) (Z.land (flags ev) (not32 msk)) (mask ev)) k);
      auto.
    exact (Hwf e ev Hev).
  - intros event msk value timeout o H.
    destruct (atomEventWait_inv _ _ _ _ _ _ H)
      as [->|(e & ev & c & tcb & ev1 & s' & timo' & tm & _ & _ & _ & _ & _
              & Hev1 & ->)]; [exact Hwf|].
    apply (events_wf_insert e ev1 k); auto.
    destruct Hev1 as [->| ->]; intros Hn; [discriminate|reflexivity].
  - intros e c value st v k' H. unfold atomEventWait_resume in H.
    destruct (tcbs k !! c); [|discriminate]. simpl in H.
    destruct (events k !! e) as [ev|]; [|discriminate]. simpl in H.
    simplify_eq.
    apply (events_wf_insert e (mkEvent None (flags ev) 0) k); auto.
    intros _. reflexivity.
  - intros cb_data k' H.
    apply (events_wf_same k); [exact Hwf|].
    exact (atomEventTimerCallback_events _ _ _ H).
Qed.

(** *** Who changes the flags *)

(** X2: the flags of an event are changed by [atomEventSet] and
    [atomEventClear] on that event, and zeroed by [atomEventCreate], and by
    nothing else: [atomEventDelete] and the timeout callback leave every
    event as it is, [atomEventWait] and its resumption leave the flags of
    every event as they are, and an operation on one event leaves the other
    events as they are. *)
Theorem flags_changed_by_set_and_clear_only k :
  (forall event r, atomEventDelete event k = Some r -> events (post r) = events k)
  /\ (forall cb_data k',
        atomEventTimerCallback cb_data k = Some k' -> events k' = events k)
  /\ (forall event msk value timeout o e',
        atomEventWait event msk value timeout k = Some o ->
        flags <$> events (outcome_state o) !! e' = flags <$> events k !! e')
  /\ (forall e c value st v k' e',
        atomEventWait_resume e c value k = Some (st, v, k') ->
        flags <$> events k' !! e' = flags <$> events k !! e')
  /\ (forall event msk r e',
        atomEventSet event msk k = Some r -> event <> Some e' ->
        events (post r) !! e' = events k !! e')
  /\ (forall event msk st k' e',
        atomEventClear event msk k = Some (st, k') -> event <> Some e' ->
        events k' !! e' = events k !! e')
  /\ (forall event e',
        event <> Some e' ->
        events (atomEventCreate event k).2 !! e' = events k !! e').
Proof.
  split_and!.
  - intros event r. apply atomEventDelete_events.
  - intros cb_data k'. apply atomEventTimerCallback_events.
  - intros event msk value timeout o e' H.
    destruct (atomEventWait_inv _ _ _ _ _ _ H)
      as [->|(e & ev & c & tcb & ev1 & s' & timo' & tm & _ & Hev & _ & _ & _
              & Hev1 & ->)]; [reflexivity|].
    simpl. destruct (decide (e = e')) as [<-|Hne].
    + rewrite lookup_insert_eq, Hev. destruct Hev1 as [->| ->]; reflexivity.
    + rewrite lookup_insert_ne by exact Hne. reflexivity.
  - intros e c value st v k' e' H. unfold atomEventWait_resume in H.
    destruct (tcbs k !! c); [|discriminate]. simpl in H.
    destruct (events k !! e) as [ev|] eqn:Hev; [|discriminate]. simpl in H.
    simplify_eq. simpl. destruct (decide (e = e')) as [<-|Hne].
    + rewrite lookup_insert_eq, Hev. reflexivity.
    + rewrite lookup_insert_ne by exact Hne. reflexivity.
  - intros event msk r e' H Hne.
    destruct (atomEventSet_events event msk k r H)
      as [->|(e & ev & -> & _ & ->)]; [reflexivity|].
    apply lookup_insert_ne. congruence.
  - intros [e|] msk st k' e' H Hne; simpl in H; [|by simplify_eq].
    destruct (events k !! e) as [ev|]; [|discriminate]. simpl in H.
    simplify_eq. simpl. apply lookup_insert_ne. congruence.
  - intros [e|] e' Hne; simpl; [|reflexivity].
    apply lookup_insert_ne. congruence.
Qed.

(** *** What a wait leaves alone *)

(** X3: whatever its outcome, [atomEventWait] leaves the ready queue and
    the current context as they are, touches no event but the one waited
    on and no TCB but the caller's, and in the caller's TCB neither the
    priority nor the wake status: the status a thread finds when it resumes
    is never written by its own wait. *)
Theorem atomEventWait_frame event msk value timeout k o :
  atomEventWait event msk value timeout k = Some o ->
  tcbReadyQ (outcome_state o) = tcbReadyQ k
  /\ curr_tcb (outcome_state o) = curr_tcb k
  /\ (forall e', event <> Some e' ->
                 events (outcome_state o) !! e' = events k !! e')
  /\ (forall t, curr_tcb k <> Some t ->
                tcbs (outcome_state o) !! t = tcbs k !! t)
  /\ (forall t, suspend_wake_status <$> tcbs (outcome_state o) !! t
                = suspend_wake_status <$> tcbs k !! t)
  /\ (forall t, priority <$> tcbs (outcome_state o) !! t
                = priority <$> tcbs k !! t).
Proof.
  intros H.
  destruct (atomEventWait_inv _ _ _ _ _ _ H)
    as [->|(e & ev & c & tcb & ev1 & s' & timo' & tm & -> & Hev & _ & Hc & Htcb
            & _ & ->)]; [repeat split|].
  simpl. split_and!; try reflexivity.
  - intros e' Hne. apply lookup_insert_ne. congruence.
  - intros t Hne. apply lookup_insert_ne. congruence.
  - intros t. destruct (decide (c = t)) as [<-|Hne].
    + rewrite lookup_insert_eq, Htcb. reflexivity.
    + rewrite lookup_insert_ne by exact Hne. reflexivity.
  - intros t. destruct (decide (c = t)) as [<-|Hne].
    + rewrite lookup_insert_eq, Htcb. reflexivity.
    + rewrite lookup_insert_ne by exact Hne. reflexivity.
Qed.

(** *** When a wait suspends its caller *)

(** X4: on an event that exists, [atomEventWait] suspends its caller
    exactly when no flag of the mask is set, the timeout is not negative,
    the call is made by a thread, the waiter slot is free and, if a timeout
    is given, the timer registration succeeds; in every other case it
    returns. *)
Theorem atomEventWait_suspends_iff e ev msk value timeout k :
  events k !! e = Some ev ->
  (exists c v k',
      atomEventWait (Some e) msk value timeout k = Some (WaitSched c v k'))
  <-> (Z.land (flags ev) msk = 0
       /\ timeout >= 0
       /\ tcb_ptr ev = None
       /\ (exists c, curr_tcb k = Some c /\ is_Some (tcbs k !! c))
       /\ (timeout <> 0 ->
           (atomTimerRegister (timers k)
              (mkTimer atomEventTimerCallback_func (Some e)
                 (timeout mod 2 ^ 32))).1 = ATOM_OK)).
Proof.
  intros Hev. split.
  - intros (c & v & k' & H). unfold atomEventWait in H.
    rewrite Hev in H. simpl in H.
    destruct (decide (Z.land (flags ev) msk = 0)); [|discriminate].
    destruct (decide (timeout >= 0)); [|discriminate].
    destruct (curr_tcb k) as [c'|]; [|discriminate].
    destruct (tcb_ptr ev); [discriminate|].
    destruct (tcbs k !! c') as [tcb|] eqn:Htcb; [|discriminate]. simpl in H.
    split_and!; auto; [eauto|].
    intros Hne. destruct (decide (timeout <> 0)); [|contradiction].
    destruct (atomTimerRegister _ _) as [st tm]. simpl.
    destruct (decide (st <> ATOM_OK)); [discriminate|].
    by apply dec_stable.
  - intros (Hz & Hto & Hfree & (c & Hc & [tcb Htcb]) & Hreg).
    do 3 eexists.
    apply (atomEventWait_blocks e ev c tcb msk value timeout k); assumption.
Qed.

(** *** Scheduling and suspension happen in thread context only *)

(** X5: [atomEventSet] and [atomEventDelete] call the scheduler only from
    thread context and only after the waiter of the event has been put on
    the ready queue with success, and [atomEventWait] suspends only the
    current thread.  In interrupt context nothing schedules or suspends,
    and [atomEventWait] returns with the kernel state untouched. *)
Theorem scheduling_in_thread_context_only k :
  (forall event r,
      atomEventDelete event k = Some r -> sched r = true ->
      ret r = ATOM_OK
      /\ exists c e ev t,
           curr_tcb k = Some c /\ event = Some e
           /\ events k !! e = Some ev /\ tcb_ptr ev = Some t)
  /\ (forall event msk r,
        atomEventSet event msk k = Some r -> sched r = true ->
        (ret r = ATOM_OK \/ ret r = ATOM_ERR_TIMER)
        /\ exists c e ev t,
             curr_tcb k = Some c /\ event = Some e
             /\ events k !! e = Some ev /\ tcb_ptr ev = Some t
             /\ (tcbEnqueuePriority (tcbs k) (tcbReadyQ k) t).1 = ATOM_OK)
  /\ (forall event msk value timeout c v k',
        atomEventWait event msk value timeout k = Some (WaitSched c v k') ->
        curr_tcb k = Some c)
  /\ (curr_tcb k = None ->
      (forall event r, atomEventDelete event k = Some r -> sched r = false)
      /\ (forall event msk r,
            atomEventSet event msk k = Some r -> sched r = false)
      /\ (forall event msk value timeout o,
            atomEventWait event msk value timeout k = Some o ->
            exists st v, o = WaitReturn st v k)).
Proof.
  assert (Hdel : forall event r,
    atomEventDelete event k = Some r -> sched r = true ->
    ret r = ATOM_OK
    /\ exists c e ev t,
         curr_tcb k = Some c /\ event = Some e
         /\ events k !! e = Some ev /\ tcb_ptr ev = Some t).
  { intros [e|] r H Hs; simpl in H; [|by simplify_eq].
    destruct (events k !! e) as [ev|] eqn:Hev; [|discriminate]. simpl in H.
    destruct (tcb_ptr ev) as [t|] eqn:Ht; [|by simplify_eq].
    destruct (curr_tcb k) as [c|] eqn:Hc.
    - repeat (simplify_option_eq || case_match); simpl in *;
        try discriminate; (split; [reflexivity|]); exists c, e, ev, t; auto.
    - unfold in_thread_context in H. simpl in H. rewrite Hc in H.
      repeat (simplify_option_eq || case_match); simpl in *; discriminate. }
  assert (Hset : forall event msk r,
    atomEventSet event msk k = Some r -> sched r = true ->
    (ret r = ATOM_OK \/ ret r = ATOM_ERR_TIMER)
    /\ exists c e ev t,
         curr_tcb k = Some c /\ event = Some e
         /\ events k !! e = Some ev /\ tcb_ptr ev = Some t
         /\ (tcbEnqueuePriority (tcbs k) (tcbReadyQ k) t).1 = ATOM_OK).
  { intros [e|] msk r H Hs; simpl in H; [|by simplify_eq].
    destruct (decide (msk = 0)); [by simplify_eq|].
    destruct (events k !! e) as [ev|] eqn:Hev; [|discriminate]. simpl in H.
    destruct (tcb_ptr ev) as [t|] eqn:Ht; [|by simplify_eq].
    destruct (decide (Z.land (Z.lor (flags ev) msk) (mask ev) <> 0));
      [|by simplify_eq].
    destruct (tcbEnqueuePriority (tcbs k) (tcbReadyQ k) t) as [st q] eqn:Henq.
    destruct (decide (st <> ATOM_OK)) as [|Hst]; [by simplify_eq|].
    apply dec_stable in Hst. subst st.
    destruct (curr_tcb k) as [c|] eqn:Hc.
    - repeat (simplify_option_eq || case_match); simpl in *;
        (split; [auto|]); exists c, e, ev, t; split_and!; auto;
        by rewrite Henq.
    - unfold in_thread_context in H. simpl in H. rewrite Hc in H.
      repeat (simplify_option_eq || case_match); simpl in *; discriminate. }
  assert (Hwait : forall event msk value timeout c v k',
    atomEventWait event msk value timeout k = Some (WaitSched c v k') ->
    curr_tcb k = Some c).
  { intros [e|] msk value timeout c v k' H; simpl in H; [|discriminate].
    repeat (simplify_option_eq || case_match); reflexivity. }
  split; [exact Hdel|]. split; [exact Hset|]. split; [exact Hwait|].
  intros Hisr. split_and!.
  - intros event r H. destruct (sched r) eqn:Hs; [|reflexivity].
    destruct (Hdel event r H Hs) as (_ & c & _ & _ & _ & Hc & _). congruence.
  - intros event msk r H. destruct (sched r) eqn:Hs; [|reflexivity].
    destruct (Hset event msk r H Hs) as (_ & c & _ & _ & _ & Hc & _). congruence.
  - intros event msk value timeout o H. destruct o as [st v k'|c v k'].
    + destruct (atomEventWait_inv _ _ _ _ _ _ H)
        as [Hk|(e & ev & c & tcb & ev1 & s' & timo' & tm & _ & _ & _ & Hc & _)].
      * simpl in Hk. subst k'. eauto.
      * congruence.
    + pose proof (Hwait _ _ _ _ _ _ _ H). congruence.
Qed.

(** *** Setting and clearing, one after the other *)

Lemma uint32_high_bit a n : 0 <= a < 2 ^ 32 -> 32 <= n -> Z.testbit a n = false.
Proof.
  intros Ha Hn. destruct (Z.eq_dec a 0) as [->|Hne]; [apply Z.bits_0|].
  apply Z.bits_above_log2; [lia|].
  assert (Z.log2 a < 32) by (apply Z.log2_lt_pow2; lia). lia.
Qed.

Lemma not32_high_bit m n : 32 <= n -> Z.testbit (not32 m) n = Z.testbit m n.
Proof.
  intros Hn. unfold not32.
  rewrite Z.lxor_spec, Z.ones_spec_high by lia. apply xorb_false_r.
Qed.

Lemma land_lor_not32 f m :
  0 <= m < 2 ^ 32 -> Z.land (Z.lor f m) (not32 m) = Z.land f (not32 m).
Proof.
  intros Hm. apply Z.bits_inj'. intros n Hn.
  rewrite !Z.land_spec, Z.lor_spec.
  destruct (Z_lt_le_dec n 32).
  - rewrite not32_testbit by lia.
    destruct (Z.testbit f n), (Z.testbit m n); reflexivity.
  - rewrite not32_high_bit, (uint32_high_bit m n) by lia.
    rewrite !andb_false_r. reflexivity.
Qed.

Lemma land_not32_disjoint f m :
  0 <= f < 2 ^ 32 -> Z.land f m = 0 -> Z.land f (not32 m) = f.
Proof.
  intros Hf Hz. apply Z.bits_inj'. intros n Hn.
  rewrite Z.land_spec.
  destruct (Z_lt_le_dec n 32).
  - rewrite not32_testbit by lia.
    assert (Hb : Z.testbit (Z.land f m) n = false) by (rewrite Hz; apply Z.bits_0).
    rewrite Z.land_spec in Hb.
    destruct (Z.testbit f n), (Z.testbit m n); try reflexivity; discriminate.
  - rewrite (uint32_high_bit f n) by lia. reflexivity.
Qed.

(** X6: when [atomEventSet (e, m)] wakes nobody, [atomEventClear (e, m)]
    after it leaves the flags at [flags & ~m]; if no bit of [m] was set
    before, the two calls together leave the whole kernel state as it
    was. *)
Theorem set_then_clear e ev msk k :
  events k !! e = Some ev ->
  0 < msk < 2 ^ 32 ->
  tcb_ptr ev = None \/ Z.land (Z.lor (flags ev) msk) (mask ev) = 0 ->
  exists r k2,
    atomEventSet (Some e) msk k = Some r
    /\ ret r = ATOM_OK
    /\ atomEventClear (Some e) msk (post r) = Some (ATOM_OK, k2)
    /\ events k2 !! e
       = Some (mkEvent (tcb_ptr ev) (Z.land (flags ev) (not32 msk)) (mask ev))
    /\ (0 <= flags ev < 2 ^ 32 -> Z.land (flags ev) msk = 0 -> k2 = k).
Proof.
  intros Hev Hmsk Hq.
  eexists. eexists.
  split; [apply (atomEventSet_quiet e ev msk k Hev); [lia|exact Hq]|].
  simpl. split; [reflexivity|].
  unfold atomEventClear. simpl. rewrite lookup_insert_eq. simpl.
  split; [reflexivity|]. simpl.
  rewrite land_lor_not32 by lia.
  split; [apply lookup_insert_eq|].
  intros Hf Hz. rewrite land_not32_disjoint by assumption.
  rewrite insert_insert_eq.
  replace (mkEvent (tcb_ptr ev) (flags ev) (mask ev)) with ev
    by (destruct ev; reflexivity).
  rewrite (insert_id _ _ _ Hev). destruct k; reflexivity.
Qed.

(** *** Wake paths in full *)

(** The wake path of [atomEventSet] when the insertion in the ready queue
    succeeds. *)
Lemma atomEventSet_wakes e ev t tcb msk k :
  events k !! e = Some ev ->
  tcb_ptr ev = Some t ->
  tcbs k !! t = Some tcb ->
  msk <> 0 ->
  Z.land (Z.lor (flags ev) msk) (mask ev) <> 0 ->
  (tcbEnqueuePriority (tcbs k) (tcbReadyQ k) t).1 = ATOM_OK ->
  exists r tcb',
    atomEventSet (Some e) msk k = Some r
    /\ events (post r)
       = <[e := mkEvent (Some t) (Z.lor (flags ev) msk) (mask ev)]> (events k)
    /\ tcbs (post r) = <[t := tcb']> (tcbs k)
    /\ suspend_wake_status tcb' = ATOM_OK
    /\ tcbReadyQ (post r) = (tcbEnqueuePriority (tcbs k) (tcbReadyQ k) t).2
    /\ curr_tcb (post r) = curr_tcb k
    /\ timers (post r)
       = match suspend_timo_cb tcb with
         | Some cb => (atomTimerCancel (timers k) cb).2
         | None => timers k
         end
    /\ ((forall cb, suspend_timo_cb tcb = Some cb ->
                    (atomTimerCancel (timers k) cb).1 = ATOM_OK) ->
        ret r = ATOM_OK /\ suspend_timo_cb tcb' = None).
Proof.
  intros Hev Ht Htcb Hmsk Hnz Henq. unfold atomEventSet.
  destruct (decide (msk = 0)); [contradiction|].
  rewrite Hev. simpl. rewrite Ht. simpl.
  destruct (decide (Z.land (Z.lor (flags ev) msk) (mask ev) <> 0));
    [|contradiction].
  destruct (tcbEnqueuePriority (tcbs k) (tcbReadyQ k) t) as [st q].
  simpl in Henq. subst st.
  destruct (decide (ATOM_OK <> ATOM_OK)); [contradiction|].
  rewrite Htcb. simpl.
  destruct (suspend_timo_cb tcb) as [cb|] eqn:Hcb.
  - destruct (atomTimerCancel (timers k) cb) as [st' tm] eqn:Hcan.
    destruct (decide (st' <> ATOM_OK)) as [Hst|Hst].
    + do 2 eexists. split; [reflexivity|]. simpl.
      split_and!; try reflexivity.
      intros Hok. specialize (Hok cb eq_refl). rewrite Hcan in Hok.
      simpl in Hok. contradiction.
    + do 2 eexists. split; [reflexivity|]. simpl.
      split_and!; try apply insert_insert_eq; try reflexivity.
      intros _. split; reflexivity.
  - do 2 eexists. split; [reflexivity|]. simpl.
    split_and!; try apply insert_insert_eq; try reflexivity.
    intros _. split; reflexivity.
Qed.

(** A wait that finds a flag of its mask set. *)
Lemma atomEventWait_immediate e ev msk value timeout k :
  events k !! e = Some ev ->
  Z.land (flags ev) msk <> 0 ->
  atomEventWait (Some e) msk value timeout k
  = Some (WaitReturn ATOM_OK (store_value value (Z.land (flags ev) msk)) k).
Proof.
  intros Hev Hset. unfold atomEventWait. rewrite Hev. simpl.
  destruct (decide (Z.land (flags ev) msk = 0)); [contradiction|].
  destruct value; reflexivity.
Qed.

(** *** Flags are not consumed by a wait *)


(** *** A waiter that has been woken and has not resumed *)

(** X8: no waker takes the waiter out of the waiter slot, so a second
    [atomEventSet] made before the woken thread resumes, whatever its
    mask, hands the thread to the ready queue again: on a ready queue that
    inserts what it is given, the thread is then queued twice. *)
Theorem set_twice_enqueues_twice e ev t tcb m1 m2 k :
  enqueue_inserts KS ->
  (forall ts q, (tcbEnqueuePriority ts q t).1 = ATOM_OK) ->
  events k !! e = Some ev ->
  tcb_ptr ev = Some t ->
  tcbs k !! t = Some tcb ->
  m1 <> 0 ->
  m2 <> 0 ->
  Z.land (Z.lor (flags ev) m1) (mask ev) <> 0 ->
  exists r1 r2,
    atomEventSet (Some e) m1 k = Some r1
    /\ atomEventSet (Some e) m2 (post r1) = Some r2
    /\ tcbReadyQ (post r2) ≡ₚ t :: t :: tcbReadyQ k.
Proof.
  intros Hins Hok Hev Ht Htcb Hm1 Hm2 Hnz.
  destruct (atomEventSet_wakes e ev t tcb m1 k Hev Ht Htcb Hm1 Hnz (Hok _ _))
    as (r1 & tcb1 & Hset1 & Hevs1 & Htcbs1 & _ & Hq1 & _).
  assert (Hnz2 : Z.land (Z.lor (Z.lor (flags ev) m1) m2) (mask ev) <> 0).
  { rewrite Z.land_lor_distr_l. intros Hz.
    apply Z.lor_eq_0_iff in Hz as [Hz _]. contradiction. }
  destruct (atomEventSet_wakes e
              (mkEvent (Some t) (Z.lor (flags ev) m1) (mask ev)) t tcb1 m2
              (post r1))
    as (r2 & tcb2 & Hset2 & _ & _ & _ & Hq2 & _); auto.
  { rewrite Hevs1. apply lookup_insert_eq. }
  { rewrite Htcbs1. apply lookup_insert_eq. }
  exists r1, r2. split; [exact Hset1|]. split; [exact Hset2|].
  rewrite Hq2, (Hins _ _ _ (Hok _ _)), Hq1, (Hins _ _ _ (Hok _ _)).
  reflexivity.
Qed.

(** *** The last waker decides the status *)

(** X9: a waiter woken by [atomEventSet] and not yet resumed is still
    reached by [atomEventDelete], which overwrites its wake status: the
    thread then returns ATOM_ERR_DELETED, and its value out-parameter is
    not written, although a flag of its mask is set. *)
Theorem delete_after_set_wins e ev c tcb msk value k :
  events k !! e = Some ev ->
  tcb_ptr ev = Some c ->
  tcbs k !! c = Some tcb ->
  msk <> 0 ->
  Z.land (Z.lor (flags ev) msk) (mask ev) <> 0 ->
  (tcbEnqueuePriority (tcbs k) (tcbReadyQ k) c).1 = ATOM_OK ->
  exists r1 r2 k3,
    atomEventSet (Some e) msk k = Some r1
    /\ suspend_wake_status <$> tcbs (post r1) !! c = Some ATOM_OK
    /\ atomEventDelete (Some e) (post r1) = Some r2
    /\ atomEventWait_resume e c value (post r2)
       = Some (ATOM_ERR_DELETED, value, k3)
    /\ events k3 !! e = Some (mkEvent None (Z.lor (flags ev) msk) 0).
Proof.
  intros Hev Hc Htcb Hmsk Hnz Henq.
  destruct (atomEventSet_wakes e ev c tcb msk k Hev Hc Htcb Hmsk Hnz Henq)
    as (r1 & tcb1 & Hset & Hevs & Htcbs & Hst & _).
  assert (Hev1 : events (post r1) !! e
                 = Some (mkEvent (Some c) (Z.lor (flags ev) msk) (mask ev)))
    by (rewrite Hevs; apply lookup_insert_eq).
  assert (Htcb1 : tcbs (post r1) !! c = Some tcb1)
    by (rewrite Htcbs; apply lookup_insert_eq).
  destruct (atomEventDelete_waiter e _ c tcb1 (post r1) Hev1 eq_refl Htcb1)
    as (r2 & tcb2 & Hdel & Hevs2 & _ & Htcbs2 & Hst2).
  exists r1, r2. eexists.
  split; [exact Hset|].
  split; [rewrite Htcb1; simpl; rewrite Hst; reflexivity|].
  split; [exact Hdel|].
  rewrite (atomEventWait_resume_eq e
             (mkEvent (Some c) (Z.lor (flags ev) msk) (mask ev)) c tcb2);
    [|rewrite Hevs2; exact Hev1|rewrite Htcbs2; apply lookup_insert_eq].
  rewrite Hst2. simpl. split; [reflexivity|]. apply lookup_insert_eq.
Qed.

(** *** A wait that times out *)

(** X10: when the timeout of a blocked wait expires, the callback gives the
    thread the status ATOM_TIMEOUT and clears its pending timeout without
    cancelling the request (the timers are those left by the registration),
    and the resumed wait returns ATOM_TIMEOUT with the value out-parameter
    at 0, the flags untouched, the waiter slot empty and the wait mask 0:
    an event that had wait mask 0 is exactly as the wait found it. *)
Theorem timed_out_wait_cycle e ev c tcb msk value timeout k :
  events k !! e = Some ev ->
  Z.land (flags ev) msk = 0 ->
  timeout > 0 ->
  curr_tcb k = Some c ->
  tcb_ptr ev = None ->
  tcbs k !! c = Some tcb ->
  (atomTimerRegister (timers k)
     (mkTimer atomEventTimerCallback_func (Some e) (timeout mod 2 ^ 32))).1
  = ATOM_OK ->
  exists k1 k2 k3,
    atomEventWait (Some e) msk value timeout k
    = Some (WaitSched c (store_value value 0) k1)
    /\ atomEventTimerCallback (Some e) k1 = Some k2
    /\ atomEventWait_resume e c (store_value value 0) k2
       = Some (ATOM_TIMEOUT, store_value value 0, k3)
    /\ events k3 = <[e := mkEvent None (flags ev) 0]> (events k)
    /\ (event_wf ev -> events k3 = events k)
    /\ tcbs k3 !! c = Some (mkTcb (priority tcb) true ATOM_TIMEOUT None)
    /\ timers k3
       = (atomTimerRegister (timers k)
            (mkTimer atomEventTimerCallback_func (Some e)
               (timeout mod 2 ^ 32))).2.
Proof.
  intros Hev Hz Hto Hc Hfree Htcb Hreg.
  pose proof (atomEventWait_blocks e ev c tcb msk value timeout k
                Hev Hz ltac:(lia) Hc Hfree Htcb (fun _ => Hreg)) as Hw.
  destruct (decide (timeout = 0)) as [|_]; [lia|].
  match type of Hw with _ = Some (WaitSched _ _ ?st) => set (k1 := st) in * end.
  set (timer_cb := mkTimer atomEventTimerCallback_func (Some e)
                     (timeout mod 2 ^ 32)) in *.
  set (tcb1 := mkTcb (priority tcb) true (suspend_wake_status tcb)
                 (Some timer_cb)) in *.
  assert (Hev1 : events k1 !! e = Some (mkEvent (Some c) (flags ev) msk))
    by apply lookup_insert_eq.
  assert (Htcb1 : tcbs k1 !! c = Some tcb1) by apply lookup_insert_eq.
  destruct (atomEventTimerCallback_waiter e _ c tcb1 k1 Hev1 eq_refl Htcb1)
    as (k2 & Hcb & Hevs & _ & Htm & Htcbs & _).
  exists k1, k2. eexists.
  split; [exact Hw|]. split; [exact Hcb|].
  rewrite (atomEventWait_resume_eq e (mkEvent (Some c) (flags ev) msk) c
             (set_timo None (set_wake ATOM_TIMEOUT tcb1)));
    [|rewrite Hevs; exact Hev1|rewrite Htcbs; apply lookup_insert_eq].
  split; [reflexivity|].
  assert (Hfinal : events (with_events
                     (<[e := mkEvent None (flags ev) 0]> (events k2)) k2)
                   = <[e := mkEvent None (flags ev) 0]> (events k)).
  { simpl. rewrite Hevs. subst k1. simpl. apply insert_insert_eq. }
  split; [exact Hfinal|].
  split.
  { intros Hwf. etransitivity; [exact Hfinal|].
    apply insert_id. rewrite Hev. f_equal.
    destruct ev as [w f m]. unfold event_wf in Hwf. simpl in *.
    subst w. rewrite Hwf by reflexivity. reflexivity. }
  split.
  { simpl. rewrite Htcbs. apply lookup_insert_eq. }
  simpl. rewrite Htm. reflexivity.
Qed.

(** *** A wait with timeout that is woken leaves no timer behind *)

(** The success path of [atomEventDelete] for a waiter with a timeout. *)
Lemma atomEventDelete_cancels e ev t tcb cb tm k :
  events k !! e = Some ev ->
  tcb_ptr ev = Some t ->
  tcbs k !! t = Some tcb ->
  suspend_timo_cb tcb = Some cb ->
  (tcbEnqueuePriority (<[t := set_wake ATOM_ERR_DELETED tcb]> (tcbs k))
     (tcbReadyQ k) t).1 = ATOM_OK ->
  atomTimerCancel (timers k) cb = (ATOM_OK, tm) ->
  exists r,
    atomEventDelete (Some e) k = Some r
    /\ ret r = ATOM_OK
    /\ timers (post r) = tm
    /\ tcbs (post r)
       = <[t := set_timo None (set_wake ATOM_ERR_DELETED tcb)]> (tcbs k).
Proof.
  intros Hev Ht Htcb Hcb Henq Hcan. unfold atomEventDelete.
  rewrite Hev. simpl. rewrite Ht, Htcb. simpl.
  destruct (tcbEnqueuePriority _ _ t) as [st q]. simpl in Henq. subst st.
  destruct (decide (ATOM_OK <> ATOM_OK)); [contradiction|].
  rewrite Hcb. simpl. rewrite Hcan.
  destruct (decide (ATOM_OK <> ATOM_OK)); [contradiction|].
  eexists. split; [reflexivity|]. simpl.
  split_and!; try reflexivity. apply insert_insert_eq.
Qed.

(** X11: the request that a wait with timeout registers is the one stored
    in the TCB, so it is the one [atomEventSet] and [atomEventDelete]
    cancel when they wake the thread: with a timer subsystem that can
    cancel what it has just registered, and a request that was not pending
    already, both return ATOM_OK, the timers are those before the wait, and
    the TCB has no timeout pending. *)
Theorem woken_wait_leaves_no_timer e ev c tcb w value timeout k :
  cancel_undoes_register KS ->
  (forall ts q, (tcbEnqueuePriority ts q c).1 = ATOM_OK) ->
  events k !! e = Some ev ->
  Z.land (flags ev) w = 0 ->
  timeout > 0 ->
  curr_tcb k = Some c ->
  tcb_ptr ev = None ->
  tcbs k !! c = Some tcb ->
  mkTimer atomEventTimerCallback_func (Some e) (timeout mod 2 ^ 32)
  ∉ timers k ->
  (atomTimerRegister (timers k)
     (mkTimer atomEventTimerCallback_func (Some e) (timeout mod 2 ^ 32))).1
  = ATOM_OK ->
  exists k1,
    atomEventWait (Some e) w value timeout k
    = Some (WaitSched c (store_value value 0) k1)
    /\ (forall msk,
          msk <> 0 -> Z.land (Z.lor (flags ev) msk) w <> 0 ->
          exists r,
            atomEventSet (Some e) msk k1 = Some r
            /\ ret r = ATOM_OK
            /\ timers (post r) = timers k
            /\ suspend_timo_cb <$> tcbs (post r) !! c = Some None)
    /\ (exists r,
          atomEventDelete (Some e) k1 = Some r
          /\ ret r = ATOM_OK
          /\ timers (post r) = timers k
          /\ suspend_timo_cb <$> tcbs (post r) !! c = Some None).
Proof.
  intros Hundo Hok Hev Hz Hto Hc Hfree Htcb Hnew Hreg.
  pose proof (atomEventWait_blocks e ev c tcb w value timeout k
                Hev Hz ltac:(lia) Hc Hfree Htcb (fun _ => Hreg)) as Hw.
  destruct (decide (timeout = 0)) as [|_]; [lia|].
  match type of Hw with _ = Some (WaitSched _ _ ?st) => set (k1 := st) in * end.
  set (timer_cb := mkTimer atomEventTimerCallback_func (Some e)
                     (timeout mod 2 ^ 32)) in *.
  set (tcb1 := mkTcb (priority tcb) true (suspend_wake_status tcb)
                 (Some timer_cb)) in *.
  assert (Hev1 : events k1 !! e = Some (mkEvent (Some c) (flags ev) w))
    by apply lookup_insert_eq.
  assert (Htcb1 : tcbs k1 !! c = Some tcb1) by apply lookup_insert_eq.
  assert (Hcan : atomTimerCancel (timers k1) timer_cb = (ATOM_OK, timers k))
    by (apply Hundo; [exact Hnew|exact Hreg]).
  exists k1. split; [exact Hw|]. split.
  - intros msk Hmsk Hnz.
    destruct (atomEventSet_wakes e _ c tcb1 msk k1 Hev1 eq_refl Htcb1 Hmsk
                Hnz (Hok _ _))
      as (r & tcb' & Hset & _ & Htcbs & _ & _ & _ & Htm & Hret).
    destruct Hret as [Hret Hnone].
    { intros cb Heq. injection Heq as <-. exact (f_equal fst Hcan). }
    exists r. split; [exact Hset|]. split; [exact Hret|].
    split.
    + etransitivity; [exact Htm|]. exact (f_equal snd Hcan).
    + rewrite Htcbs, lookup_insert_eq. simpl. rewrite Hnone. reflexivity.
  - destruct (atomEventDelete_cancels e _ c tcb1 timer_cb (timers k) k1
                Hev1 eq_refl Htcb1 eq_refl (Hok _ _) Hcan)
      as (r & Hdel & Hret & Htm & Htcbs).
    exists r. split; [exact Hdel|]. split; [exact Hret|].
    split; [exact Htm|].
    rewrite Htcbs, lookup_insert_eq. reflexivity.
Qed.

(** *** The test of waits on flags already set *)

Lemma shiftl_mod_bit s i :
  0 <= i < 32 -> Z.testbit s 0 = true ->
  Z.testbit (Z.shiftl s i mod 2 ^ 32) i = true.
Proof.
  intros Hi Hs.
  rewrite Z.mod_pow2_bits_low, Z.shiftl_spec by lia.
  rewrite Z.sub_diag. exact Hs.
Qed.

Lemma land_bit a i :
  0 <= i -> Z.testbit a i = true -> Z.land a (Z.shiftl 1 i) = Z.shiftl 1 i.
Proof.
  intros Hi Ha. rewrite Z.shiftl_1_l. apply Z.bits_inj'. intros n Hn.
  rewrite Z.land_spec, Z.pow2_bits_eqb by lia.
  destruct (Z.eqb_spec i n) as [<-|_].
  - rewrite Ha. reflexivity.
  - apply andb_false_r.
Qed.

Lemma not32_ones : not32 (Z.ones 32) = 0.
Proof. unfold not32. apply Z.lxor_nilpotent. Qed.

Lemma already_set_turn_ok ticks e ev set_mask i failures val k :
  events k !! e = Some ev ->
  flags ev = 0 ->
  tcb_ptr ev = None ->
  0 <= i < 32 ->
  Z.testbit set_mask 0 = true ->
  already_set_turn ticks (Some e) set_mask i (failures, val, k)
  = Some (failures, Z.shiftl 1 i, k).
Proof.
  intros Hev Hfl Hfree Hi Hodd.
  pose proof (shiftl_mod_bit set_mask i Hi Hodd) as Hbit.
  set (msk := Z.shiftl set_mask i mod 2 ^ 32) in *.
  assert (Hmsk : msk <> 0).
  { intros Hz. rewrite Hz, Z.bits_0 in Hbit. discriminate. }
  assert (Hland : Z.land msk (Z.shiftl 1 i) = Z.shiftl 1 i)
    by (apply land_bit; [lia|exact Hbit]).
  assert (Hpos : Z.shiftl 1 i <> 0).
  { rewrite Z.shiftl_1_l. apply Z.pow_nonzero; lia. }
  unfold already_set_turn. fold msk.
  rewrite (atomEventSet_quiet e ev msk k Hev Hmsk (or_introl Hfree)).
  cbn [mbind option_bind ret post].
  destruct (decide (ATOM_OK <> ATOM_OK)); [contradiction|].
  rewrite Hfl, Z.lor_0_l, Hfree.
  rewrite (atomEventWait_immediate e (mkEvent None msk (mask ev)));
    [|apply lookup_insert_eq|simpl; rewrite Hland; exact Hpos].
  cbn [mbind option_bind flags store_value default].
  rewrite Hland.
  unfold id.
  destruct (decide (ATOM_OK <> ATOM_OK)); [contradiction|].
  destruct (decide (Z.shiftl 1 i <> Z.shiftl 1 i)); [contradiction|].
  unfold atomEventClear. cbn [events with_events].
  rewrite lookup_insert_eq. cbn [mbind option_bind fst snd flags tcb_ptr mask].
  destruct (decide (ATOM_OK <> ATOM_OK)); [contradiction|].
  rewrite not32_ones, Z.land_0_r.
  do 2 f_equal. unfold with_events. cbn [events tcbs tcbReadyQ timers curr_tcb].
  rewrite insert_insert_eq.
  replace (mkEvent None 0 (mask ev)) with ev
    by (destruct ev; simpl in *; congruence).
  rewrite (insert_id _ _ _ Hev). destruct k; reflexivity.
Qed.

Lemma already_set_inner_ok n ticks e ev set_mask i failures val k :
  events k !! e = Some ev ->
  flags ev = 0 ->
  tcb_ptr ev = None ->
  0 <= i ->
  i + Z.of_nat n <= 32 ->
  Z.testbit set_mask 0 = true ->
  already_set_inner n ticks (Some e) set_mask i (failures, val, k)
  = Some (failures,
          match n with
          | O => val
          | S _ => Z.shiftl 1 (i + Z.of_nat n - 1)
          end, k).
Proof.
  intros Hev Hfl Hfree. revert i val.
  induction n as [|n IH]; intros i val Hi Hn Hodd; [reflexivity|].
  cbn [already_set_inner].
  rewrite (already_set_turn_ok ticks e ev set_mask i failures val k)
    by (auto; lia).
  cbn [mbind option_bind].
  rewrite IH by (auto; lia).
  destruct n; do 2 f_equal; f_equal; f_equal; lia.
Qed.

Lemma already_set_outer_ok n ticks e ev set_mask failures val k :
  events k !! e = Some ev ->
  flags ev = 0 ->
  tcb_ptr ev = None ->
  already_set_outer n ticks (Some e) set_mask (failures, val, k)
  = Some (failures,
          match n with
          | O => val
          | S _ => Z.shiftl 1 31
          end, k).
Proof.
  intros Hev Hfl Hfree. revert set_mask val.
  induction n as [|n IH]; intros set_mask val; [reflexivity|].
  cbn [already_set_outer].
  rewrite (already_set_inner_ok 32 ticks e ev _ 0 failures val k);
    auto; try lia.
  2:{ rewrite Z.lor_spec. apply orb_true_r. }
  cbn [mbind option_bind]. rewrite IH.
  destruct n; reflexivity.
Qed.

(** X12: run on an event with no flag set and no waiter, the last phase
    of the parameter test counts no failure, for any kernel services and in
    any context: each of the 32 x 32 waits returns at once with ATOM_OK and
    the lowest flag set, [1 << i], the wait never suspends the test thread,
    and the phase leaves the kernel state as it found it. *)
Theorem already_set_phase_passes ticks e ev failures val k :
  events k !! e = Some ev ->
  flags ev = 0 ->
  tcb_ptr ev = None ->
  already_set_phase ticks (Some e) (failures, val, k)
  = Some (failures, Z.shiftl 1 31, k).
Proof.
  intros Hev Hfl Hfree. unfold already_set_phase.
  apply (already_set_outer_ok 32 ticks e ev 0 failures val k Hev Hfl Hfree).
Qed.

End MoreProperties.

(** ** The reference kernel services, again *)

Lemma enqueue_priority_perm ts q t :
  SpecKernel.enqueue_priority ts q t ≡ₚ t :: q.
Proof.
  induction q as [|h q IH]; simpl; [reflexivity|].
  destruct (decide (SpecKernel.prio_of ts t < SpecKernel.prio_of ts h));
    [reflexivity|].
  rewrite IH. apply Permutation_swap.
Qed.

Lemma SpecKernel_enqueue_inserts : enqueue_inserts SpecKernel.services.
Proof. intros ts q t _. simpl. apply enqueue_priority_perm. Qed.

Lemma remove_timer_last cb tm :
  cb ∉ tm -> SpecKernel.remove_timer cb (tm ++ [cb]) = tm.
Proof.
  induction tm as [|x tm IH]; simpl; intros Hn.
  - destruct (decide (cb = cb)); [reflexivity|contradiction].
  - apply not_elem_of_cons in Hn as [Hne Hn].
    destruct (decide (x = cb)); [congruence|]. rewrite IH by exact Hn.
    reflexivity.
Qed.

Lemma SpecKernel_cancel_undoes_register :
  cancel_undoes_register SpecKernel.services.
Proof.
  intros tm cb Hn _. simpl.
  destruct (decide (cb ∈ tm ++ [cb])) as [_|Hnot].
  - rewrite remove_timer_last by exact Hn. reflexivity.
  - exfalso. apply Hnot. apply elem_of_app. right. left.
Qed.

(** ** The further theorems at work on the scenarios *)

Lemma events_wf_invariant_witness :
  events_wf created
  /\ forall r,
      atomEventSet (KS := SpecKernel.services) (Some E) 1 created = Some r ->
      events_wf (post r).
Proof.
  assert (Hboot : events_wf boot).
  { intros e ev He. vm_compute in He. discriminate. }
  destruct (events_wf_invariant (KS := SpecKernel.services) boot Hboot)
    as (Hcreate & _).
  assert (Hcreated : events_wf created) by exact (Hcreate (Some E)).
  split; [exact Hcreated|].
  destruct (events_wf_invariant (KS := SpecKernel.services) created Hcreated)
    as (_ & _ & _ & Hset & _).
  intros r. apply Hset.
Defined.

Lemma flags_changed_by_set_and_clear_only_witness :
  exists st v k',
    atomEventWait_resume E T (Some 0) woken = Some (st, v, k')
    /\ flags <$> events k' !! E = Some 1.
Proof.
  destruct (flags_changed_by_set_and_clear_only (KS := SpecKernel.services)
              woken) as (_ & _ & _ & Hres & _).
  destruct (atomEventWait_resume E T (Some 0) woken) as [[[st v] k']|] eqn:Hr;
    [|vm_compute in Hr; discriminate].
  exists st, v, k'. split; [reflexivity|].
  rewrite (Hres E T (Some 0) st v k' E Hr). reflexivity.
Defined.

Lemma atomEventWait_frame_witness :
  tcbReadyQ blocked = tcbReadyQ created
  /\ suspend_wake_status <$> tcbs blocked !! T
     = suspend_wake_status <$> tcbs created !! T.
Proof.
  destruct (atomEventWait_frame (KS := SpecKernel.services)
              (Some E) 1 (Some 7) 0 created (WaitSched T (Some 0) blocked))
    as (Hq & _ & _ & _ & Hst & _).
  - exact blocked_by_wait.
  - split; [exact Hq|exact (Hst T)].
Defined.

Lemma atomEventWait_suspends_iff_witness :
  exists c v k',
    atomEventWait (KS := SpecKernel.services) (Some E) 1 (Some 7) 5 created
    = Some (WaitSched c v k').
Proof.
  apply (atomEventWait_suspends_iff (KS := SpecKernel.services)
           E (mkEvent None 0 0) 1 (Some 7) 5 created).
  - reflexivity.
  - split; [reflexivity|]. split; [lia|]. split; [reflexivity|].
    split; [exists T; split; [reflexivity|vm_compute; eauto]|].
    intros _. reflexivity.
Defined.

Lemma scheduling_in_thread_context_only_witness :
  exists r,
    atomEventSet (KS := SpecKernel.services) (Some E) 1 (in_isr blocked)
    = Some r
    /\ ret r = ATOM_OK
    /\ sched r = false.
Proof.
  destruct (scheduling_in_thread_context_only (KS := SpecKernel.services)
              (in_isr blocked)) as (_ & _ & _ & Hisr).
  destruct (Hisr eq_refl) as (_ & Hset & _).
  destruct (atomEventSet (KS := SpecKernel.services) (Some E) 1
              (in_isr blocked)) as [r|] eqn:Hr;
    [|vm_compute in Hr; discriminate].
  exists r. split; [reflexivity|]. split.
  - injection Hr as <-. reflexivity.
  - exact (Hset (Some E) 1 r Hr).
Defined.

Lemma set_then_clear_witness :
  exists r,
    atomEventSet (KS := SpecKernel.services) (Some E) 1 created = Some r
    /\ atomEventClear (Some E) 1 (post r) = Some (ATOM_OK, created).
Proof.
  destruct (set_then_clear (KS := SpecKernel.services)
              E (mkEvent None 0 0) 1 created)
    as (r & k2 & Hset & _ & Hclr & _ & Hback).
  - reflexivity.
  - lia.
  - left. reflexivity.
  - exists r. split; [exact Hset|].
    rewrite Hclr, Hback; [reflexivity|simpl; lia|reflexivity].
Defined.


Lemma set_twice_enqueues_twice_witness :
  exists r1 r2,
    atomEventSet (KS := SpecKernel.services) (Some E) 1 (in_isr blocked)
    = Some r1
    /\ atomEventSet (KS := SpecKernel.services) (Some E) 2 (post r1) = Some r2
    /\ tcbReadyQ (post r2) ≡ₚ [T; T].
Proof.
  apply (set_twice_enqueues_twice (KS := SpecKernel.services)
           E (mkEvent (Some T) 0 1) T (mkTcb 16 true ATOM_OK None) 1 2
           (in_isr blocked)).
  - exact SpecKernel_enqueue_inserts.
  - intros ts q. reflexivity.
  - reflexivity.
  - reflexivity.
  - reflexivity.
  - discriminate.
  - discriminate.
  - vm_compute. discriminate.
Defined.

Lemma delete_after_set_wins_witness :
  exists r1 r2 k3,
    atomEventSet (KS := SpecKernel.services) (Some E) 1 (in_isr blocked)
    = Some r1
    /\ atomEventDelete (KS := SpecKernel.services) (Some E) (post r1) = Some r2
    /\ atomEventWait_resume E T (Some 0) (post r2)
       = Some (ATOM_ERR_DELETED, Some 0, k3).
Proof.
  destruct (delete_after_set_wins (KS := SpecKernel.services)
              E (mkEvent (Some T) 0 1) T (mkTcb 16 true ATOM_OK None) 1
              (Some 0) (in_isr blocked))
    as (r1 & r2 & k3 & Hset & _ & Hdel & Hres & _).
  - reflexivity.
  - reflexivity.
  - reflexivity.
  - discriminate.
  - vm_compute. discriminate.
  - reflexivity.
  - exists r1, r2, k3. repeat split; assumption.
Defined.

Lemma timed_out_wait_cycle_witness :
  exists k1 k2 k3,
    atomEventWait (KS := SpecKernel.services) (Some E) 1 (Some 7) 5 created
    = Some (WaitSched T (Some 0) k1)
    /\ atomEventTimerCallback (KS := SpecKernel.services) (Some E) k1 = Some k2
    /\ atomEventWait_resume E T (Some 0) k2 = Some (ATOM_TIMEOUT, Some 0, k3)
    /\ events k3 = events created
    /\ timers k3 = [timer5].
Proof.
  destruct (timed_out_wait_cycle (KS := SpecKernel.services)
              E (mkEvent None 0 0) T (fresh_tcb 16) 1 (Some 7) 5 created)
    as (k1 & k2 & k3 & Hw & Hcb & Hres & _ & Hev & _ & Htm).
  - reflexivity.
  - reflexivity.
  - lia.
  - reflexivity.
  - reflexivity.
  - reflexivity.
  - reflexivity.
  - exists k1, k2, k3. split; [exact Hw|]. split; [exact Hcb|].
    split; [exact Hres|]. split; [|exact Htm].
    apply Hev. intros _. reflexivity.
Defined.

Lemma woken_wait_leaves_no_timer_witness :
  exists k1 r,
    atomEventWait (KS := SpecKernel.services) (Some E) 1 (Some 7) 5 created
    = Some (WaitSched T (Some 0) k1)
    /\ atomEventSet (KS := SpecKernel.services) (Some E) 1 k1 = Some r
    /\ ret r = ATOM_OK
    /\ timers (post r) = [].
Proof.
  destruct (woken_wait_leaves_no_timer (KS := SpecKernel.services)
              E (mkEvent None 0 0) T (fresh_tcb 16) 1 (Some 7) 5 created)
    as (k1 & Hw & Hset & _).
  - exact SpecKernel_cancel_undoes_register.
  - intros ts q. reflexivity.
  - reflexivity.
  - reflexivity.
  - lia.
  - reflexivity.
  - reflexivity.
  - reflexivity.
  - intros Hin. vm_compute in Hin. inversion Hin.
  - reflexivity.
  - destruct (Hset 1) as (r & Hr & Hret & Htm & _).
    + discriminate.
    + vm_compute. discriminate.
    + exists k1, r. repeat split; assumption.
Defined.

Lemma already_set_phase_passes_witness :
  already_set_phase (KS := SpecKernel.services) 100 (Some E) (0, 0, created)
  = Some (0, 2147483648, created).
Proof.
  apply (already_set_phase_passes (KS := SpecKernel.services)
           100 E (mkEvent None 0 0) 0 0 created).
  - reflexivity.
  - reflexivity.
  - reflexivity.
Defined.
